(** * Heartnest: conversation partitioning and completion detection

    A shallow embedding of the conversation-state logic of the Heartnest
    couple-mediation application:

    - [Str]             the JavaScript string operations the code relies on;
    - [TherapyService]  lib/therapy-service.ts, the storage service;
    - [ChatRoute]       app/api/therapist/chat/route.ts, one chat turn;
    - [CreateSessionRoute] app/api/therapist/create-session/route.ts;
    - [ChatPage]        app/therapist/chat/[session_id]/page.tsx;
    - [Home]            app/page.tsx, the session creation form.

    Modelling conventions.  A string is the UTF-8 encoding of the
    JavaScript string; the case mapping is that of the ASCII letters, the
    white space is all the white space of the language.  Database tables
    are lists in insertion order, which is the order of [created_at]; the
    identifier the database generates for a new row is an argument of the
    insert.  A React state is a record; an event handler is a function
    from the state it closed over and the database to the next state and
    database.  Storage calls succeed; the completion call may fail. *)

From Stdlib Require Import String Ascii List Bool Arith ZArith Lia.
Import ListNotations.
Open Scope string_scope.
Open Scope list_scope.
Open Scope nat_scope.

(** String concatenation, the [+] and the template literals of the source. *)
Infix "+++" := String.append (right associativity, at level 60).

(* ===================================================================== *)
(** ** JavaScript strings *)
(* ===================================================================== *)

Module Str.

(** The double quote character; string literals below never contain it. *)
Definition dq : string := String "034"%char EmptyString.

(** The line feed written [\n] inside the source's string literals. *)
Definition nl : string := String "010"%char EmptyString.

Definition isUpper (c : ascii) : bool :=
  (65 <=? nat_of_ascii c) && (nat_of_ascii c <=? 90).

Definition isLower (c : ascii) : bool :=
  (97 <=? nat_of_ascii c) && (nat_of_ascii c <=? 122).

(** [String.prototype.toLowerCase], one character. *)
Definition lowerChar (c : ascii) : ascii :=
  if isUpper c then ascii_of_nat (nat_of_ascii c + 32) else c.

(** [String.prototype.toLowerCase]. *)
Fixpoint toLowerCase (s : string) : string :=
  match s with
  | EmptyString => EmptyString
  | String c s' => String (lowerChar c) (toLowerCase s')
  end.

(** [String.prototype.includes]: does [sub] occur in [s]? *)
Fixpoint includes (s sub : string) : bool :=
  prefix sub s ||
  match s with
  | EmptyString => false
  | String _ s' => includes s' sub
  end.

(** A string given by the bytes of its UTF-8 encoding. *)
Definition utf8 (bytes : list nat) : string :=
  fold_right (fun n s => String (ascii_of_nat n) s) EmptyString bytes.

(** The characters [String.prototype.trim] removes, the white space and
    the line terminators of the language, each as its UTF-8 encoding:
    U+0009 to U+000D, U+0020, U+00A0, U+1680, U+2000 to U+200A, U+2028,
    U+2029, U+202F, U+205F, U+3000 and U+FEFF. *)
Definition whiteSpace : list string :=
  [ utf8 [9]; utf8 [10]; utf8 [11]; utf8 [12]; utf8 [13]; utf8 [32];
    utf8 [194; 160];
    utf8 [225; 154; 128];
    utf8 [226; 128; 128]; utf8 [226; 128; 129]; utf8 [226; 128; 130];
    utf8 [226; 128; 131]; utf8 [226; 128; 132]; utf8 [226; 128; 133];
    utf8 [226; 128; 134]; utf8 [226; 128; 135]; utf8 [226; 128; 136];
    utf8 [226; 128; 137]; utf8 [226; 128; 138];
    utf8 [226; 128; 168]; utf8 [226; 128; 169]; utf8 [226; 128; 175];
    utf8 [226; 129; 159];
    utf8 [227; 128; 128];
    utf8 [239; 187; 191] ].

(** Does [s] start with [p]? *)
Fixpoint leads (p s : string) : bool :=
  match p with
  | EmptyString => true
  | String a p' =>
      match s with
      | EmptyString => false
      | String b s' => Ascii.eqb a b && leads p' s'
      end
  end.

(** The white space character [s] starts with, if any. *)
Definition spaceAt (s : string) : option string :=
  find (fun w => leads w s) whiteSpace.

(** [String.prototype.trimStart]; [skip] counts the bytes of a white
    space character just recognised that are still to be passed. *)
Fixpoint trimStartGo (skip : nat) (s : string) : string :=
  match s with
  | EmptyString => EmptyString
  | String c s' =>
      match skip with
      | S k => trimStartGo k s'
      | O =>
          match spaceAt s with
          | Some w => trimStartGo (String.length w - 1) s'
          | None => s
          end
      end
  end.

Definition trimStart (s : string) : string := trimStartGo 0 s.

(** [String.prototype.trimEnd]: the string is cut where only white space
    follows.  No byte inside the encoding of a character starts the
    encoding of a white space character, so the cut falls between two
    characters. *)
Fixpoint trimEnd (s : string) : string :=
  match s with
  | EmptyString => EmptyString
  | String c s' =>
      if String.eqb (trimStart s) EmptyString then EmptyString
      else String c (trimEnd s')
  end.

(** [String.prototype.trim]. *)
Definition trim (s : string) : string := trimEnd (trimStart s).

(** A JavaScript string is truthy when it is not empty. *)
Definition truthy (s : string) : bool := negb (String.eqb s "").

(** [String.prototype.split] with a non-empty separator.  [skip] counts
    the characters of a separator just recognised that are still to be
    passed over; [cur] is the piece being collected. *)
Fixpoint splitGo (sep : string) (skip : nat) (cur : string) (s : string)
  : list string :=
  match s with
  | EmptyString => [cur]
  | String c s' =>
      match skip with
      | S k => splitGo sep k cur s'
      | O =>
          if prefix sep s
          then cur :: splitGo sep (String.length sep - 1) EmptyString s'
          else splitGo sep 0 (cur +++ String c EmptyString) s'
      end
  end.

Definition split (sep s : string) : list string := splitGo sep 0 EmptyString s.

(** [Array.prototype[i]] with a possibly negative index: out of range
    gives [undefined]. *)
Definition at_ {A} (l : list A) (i : Z) : option A :=
  if (i <? 0)%Z then None else nth_error l (Z.to_nat i).

(** [Array.prototype.filter] with the callback's index argument. *)
Fixpoint filteriFrom {A} (f : A -> Z -> bool) (i : Z) (l : list A) : list A :=
  match l with
  | [] => []
  | x :: l' =>
      if f x i then x :: filteriFrom f (i + 1)%Z l' else filteriFrom f (i + 1)%Z l'
  end.

Definition filteri {A} (f : A -> Z -> bool) (l : list A) : list A :=
  filteriFrom f 0%Z l.

End Str.


(* ===================================================================== *)
(** ** lib/therapy-service.ts *)
(* ===================================================================== *)

Module TherapyService.

Inductive SessionType := PILOT | THERAPY.

Inductive Role := user | assistant.

(** A row of [chat_sessions].  [created_at] is the position in the table. *)
Record TherapySession := {
  id : string;
  user_id : option string;
  has_summary : bool;
  summary : option string;
  session_type : SessionType;
  partner_names : option string
}.

(** A row of [chat_messages].  [name] is [null] ([None]) or a string.  The
    generated columns [id] and [created_at], which the code never reads,
    are the position in the table; [metadata] is never written. *)
Record TherapyMessage := {
  session_id : string;
  message : string;
  role : Role;
  name : option string
}.

(** A row of [summaries], keyed like [TherapyMessage]. *)
Record PartnerSummary := {
  summary_session_id : string;
  partner_name : string;
  summary_text : string
}.

(** The three tables the service reads and writes. *)
Record Database := {
  chat_sessions : list TherapySession;
  chat_messages : list TherapyMessage;
  summaries : list PartnerSummary
}.

Definition emptyDatabase : Database :=
  {| chat_sessions := []; chat_messages := []; summaries := [] |}.

Definition roleEqb (r1 r2 : Role) : bool :=
  match r1, r2 with
  | user, user | assistant, assistant => true
  | _, _ => false
  end.

Definition sessionTypeEqb (t1 t2 : SessionType) : bool :=
  match t1, t2 with
  | PILOT, PILOT | THERAPY, THERAPY => true
  | _, _ => false
  end.

(** [msg.name === s] for a string [s]. *)
Definition nameIs (msg : TherapyMessage) (s : string) : bool :=
  match name msg with
  | Some n => String.eqb n s
  | None => false
  end.

(** [msg.name === null]. *)
Definition nameIsNull (msg : TherapyMessage) : bool :=
  match name msg with
  | Some _ => false
  | None => true
  end.

(** The query modifier [.single()]: the row when there is exactly one,
    otherwise the error [PGRST116], which the callers turn into [null]. *)
Definition single {A} (rows : list A) : option A :=
  match rows with
  | [r] => Some r
  | _ => None
  end.

(** [createTherapySession]: inserts a THERAPY session; [newId] is the
    identifier the database generates. *)
Definition createTherapySession (db : Database) (newId partnerNames : string)
  : Database * TherapySession :=
  let data := {| id := newId; user_id := None; has_summary := false;
                 summary := None; session_type := THERAPY;
                 partner_names := Some partnerNames |} in
  ({| chat_sessions := chat_sessions db ++ [data];
      chat_messages := chat_messages db;
      summaries := summaries db |}, data).

(** [getTherapySession]. *)
Definition getTherapySession (db : Database) (sessionId : string)
  : option TherapySession :=
  single (filter (fun s => String.eqb (id s) sessionId
                           && sessionTypeEqb (session_type s) THERAPY)
                 (chat_sessions db)).

(** [saveTherapyMessage]. *)
Definition saveTherapyMessage (db : Database) (msg : TherapyMessage)
  : Database :=
  {| chat_sessions := chat_sessions db;
     chat_messages := chat_messages db ++ [msg];
     summaries := summaries db |}.

(** [getAllSessionMessages]. *)
Definition getAllSessionMessages (db : Database) (sessionId : string)
  : list TherapyMessage :=
  filter (fun m => String.eqb (session_id m) sessionId) (chat_messages db).

(** The callback of the [filter] inside [getTherapyChatHistory]. *)
Definition historyKeep (partnerName : string) (messages : list TherapyMessage)
  (msg : TherapyMessage) (index : Z) : bool :=
  if roleEqb (role msg) user && nameIs msg partnerName then true
  else if roleEqb (role msg) assistant then
    let prevMsg := Str.at_ messages (index - 1)%Z in
    if match prevMsg with
       | Some p => roleEqb (role p) user && nameIs p partnerName
       | None => false
       end
    then true
    else if (index =? 0)%Z
            || match prevMsg with None => true | Some _ => false end
    then true
    else false
  else false.

(** The partner filter of [getTherapyChatHistory] over a loaded log. *)
Definition historyFilter (messages : list TherapyMessage)
  (partnerName : string) : list TherapyMessage :=
  Str.filteri (historyKeep partnerName messages) messages.

(** [getTherapyChatHistory]; the optional [partnerName] filters when it
    is given and not empty. *)
Definition getTherapyChatHistory (db : Database) (sessionId : string)
  (partnerName : option string) : list TherapyMessage :=
  let messages := getAllSessionMessages db sessionId in
  match partnerName with
  | Some p => if Str.truthy p then historyFilter messages p else messages
  | None => messages
  end.

(** [savePartnerSummary]. *)
Definition savePartnerSummary (db : Database) (s : PartnerSummary)
  : Database :=
  {| chat_sessions := chat_sessions db;
     chat_messages := chat_messages db;
     summaries := summaries db ++ [s] |}.

(** [getSessionSummaries]. *)
Definition getSessionSummaries (db : Database) (sessionId : string)
  : list PartnerSummary :=
  filter (fun s => String.eqb (summary_session_id s) sessionId) (summaries db).

(** [getPartnerSummary]. *)
Definition getPartnerSummary (db : Database) (sessionId partnerName : string)
  : option PartnerSummary :=
  single (filter (fun s => String.eqb (summary_session_id s) sessionId
                           && String.eqb (partner_name s) partnerName)
                 (summaries db)).

(** [checkBothPartnersSummarized]. *)
Definition checkBothPartnersSummarized (db : Database) (sessionId : string)
  : bool :=
  2 <=? length (getSessionSummaries db sessionId).

(** [session.partner_names?.split(' & ') || []], used by the route and
    by the page. *)
Definition partnerNamesOf (session : TherapySession) : list string :=
  match partner_names session with
  | Some names => Str.split " & " names
  | None => []
  end.

End TherapyService.

(* ===================================================================== *)
(** ** app/api/therapist/chat/route.ts *)
(* ===================================================================== *)

Module ChatRoute.
Import TherapyService.

(** The prompt of the first-listed partner. *)
Definition createPartner1Prompt (partnerName otherPartnerName : string) : string :=
  "You are a warm, emotionally intelligent friend who supports " +++ partnerName +++ " through relationship issues with empathy and honesty. You listen closely, respond casually (like a close friend), and speak in a grounded, non-clinical tone. Blend English and Hinglish naturally, depending on the emotional tone." +++ Str.nl +++
  Str.nl +++
  "Your core role:" +++ Str.nl +++
  "- Help " +++ partnerName +++ " reflect on their feelings, needs, and relationship dynamics with " +++ otherPartnerName +++ "." +++ Str.nl +++
  "- Ask thoughtful questions (1–2 lines max) based on what they share." +++ Str.nl +++
  "- Validate emotions gently, but don't shy away from offering honest perspectives or challenging assumptions when needed." +++ Str.nl +++
  Str.nl +++
  "Avoid giving generic advice. Always ask for real-life examples, texts, or context to understand their situation better." +++ Str.nl +++
  Str.nl +++
  "Be okay sitting with uncertainty — say " +++ Str.dq +++ "I don't know" +++ Str.dq +++ " if needed, like a real friend would." +++ Str.nl +++
  Str.nl +++
  "Tone and language:" +++ Str.nl +++
  "- Never sound like a therapist or life coach." +++ Str.nl +++
  "- Speak like a caring, real friend who " +++ Str.dq +++ "gets it." +++ Str.dq +++ " Use emotionally grounded language; avoid being overly positive, preachy, or robotic." +++ Str.nl +++
  "- Keep responses short and human — max 1–2 lines per reply." +++ Str.nl +++
  "- Blend Hinglish where it fits naturally; keep it casual and intuitive." +++ Str.nl +++
  Str.nl +++
  "Conversation structure:" +++ Str.nl +++
  "- Every 10 user replies, summarize what you've understood about " +++ partnerName +++ "'s perspective so far in 3–5 lines. Start this summary with, " +++ Str.dq +++ "Here's what I have understood so far from your perspective" +++ Str.dq +++ "." +++ Str.nl +++
  "- Suggest what you'd want to know from " +++ otherPartnerName +++ " in the situation to help move things forward." +++ Str.nl +++
  "- Nudge deeper exploration through real behaviors and past patterns — not vague hypotheticals.".

(** The prompt of the other partner, for whom the model mediates. *)
Definition createPartner2Prompt (partnerName otherPartnerName : string) : string :=
  "You are a warm, emotionally intelligent AI friend acting as a gentle mediator between " +++ otherPartnerName +++ " and " +++ partnerName +++ ". You've already spoken to " +++ otherPartnerName +++ " and understood their side deeply. Now, your job is to understand " +++ partnerName +++ " just as thoughtfully — with care, curiosity, and honesty." +++ Str.nl +++
  Str.nl +++
  "You're not here to give advice or judge. You're here to create emotional clarity between " +++ partnerName +++ " and " +++ otherPartnerName +++ " who may be hurting, confused, or stuck. Be soft, real, and grounded — like a common friend who wants to help both be seen and heard." +++ Str.nl +++
  Str.nl +++
  "Instructions:" +++ Str.nl +++
  Str.nl +++
  "-Start the conversation with this:" +++ Str.nl +++
  "- " +++ Str.dq +++ "Hey " +++ partnerName +++ ", I've already spoken to " +++ otherPartnerName +++ ". Here's what I understand about their perspective:" +++ Str.nl +++
  "- [Insert summary of " +++ otherPartnerName +++ "'s emotional experience here — keep it honest, non-blaming, and emotionally grounded.]" +++ Str.nl +++
  "- Now I'd love to hear from you. What's been going on from your side?" +++ Str.dq +++ Str.nl +++
  Str.nl +++
  "Let " +++ partnerName +++ " share freely. Don't interrupt with long replies." +++ Str.nl +++
  Str.nl +++
  "-Ask short, thoughtful follow-ups (1–2 lines max). Focus on uncovering:" +++ Str.nl +++
  "- their emotions" +++ Str.nl +++
  "- what they’ve been needing" +++ Str.nl +++
  "- what they’ve been hurt or confused by" +++ Str.nl +++
  "- how they’ve seen User 1’s actions" +++ Str.nl +++
  "- what made them shut down or pull back" +++ Str.nl +++
  "- what they still care about, if anything" +++ Str.nl +++
  Str.nl +++
  "Tone guidelines:" +++ Str.nl +++
  Str.nl +++
  "- Use a casual, warm tone (mix Hinglish + English if it fits naturally)." +++ Str.nl +++
  "- No clinical language." +++ Str.nl +++
  "- No therapy vibes." +++ Str.nl +++
  "- Don’t preach or solve — just help them reflect honestly." +++ Str.nl +++
  Str.nl +++
  "At the end of 10 user replies, generate a summary with 2 parts:" +++ Str.nl +++
  Str.nl +++
  "- “Here’s what I’ve understood about your side of the story:”" +++ Str.nl +++
  "(Write a 4–5 line emotionally clear summary from " +++ partnerName +++ "'sview.)" +++ Str.nl +++
  Str.nl +++
  "- " +++ Str.dq +++ "What feels like the next step now?" +++ Str.dq +++ Str.nl +++
  "(Offer a thoughtful suggestion — either for reflection, a conversation between " +++ otherPartnerName +++ " and " +++ partnerName +++ ", or something each can sit with.)".

(** A message of the completion call. *)
Inductive ChatRole := systemRole | userRole | assistantRole.

Record ChatMessage := { chatRole : ChatRole; content : string }.

(** [msg.role as 'user' | 'assistant']. *)
Definition chatRoleOf (r : Role) : ChatRole :=
  match r with
  | user => userRole
  | assistant => assistantRole
  end.

(** The body of the request; an absent field is the empty string. *)
Record ChatRequest := {
  sessionId : string;
  partnerName : string;
  userText : string;
  messages : list TherapyMessage
}.

(** What [openai.chat.completions.create] does: it throws, or returns the
    content of the first choice, which may be absent. *)
Inductive Completion := Failed | Replied (text : option string).

(** The answers of the route. *)
Inductive ChatResponse :=
| MissingFields
| SessionNotFound
| ServerError
| Ok (reply : string) (summary : option string).

Definition START_CONVERSATION : string := "START_CONVERSATION".

Definition isPartner1Of (partnerNames : list string) (partnerName : string)
  : bool :=
  match nth_error partnerNames 0 with
  | Some n => String.eqb n partnerName
  | None => false
  end.

(** [partnerNames.find(name => name !== partnerName) || 'your partner']. *)
Definition otherPartnerNameOf (partnerNames : list string)
  (partnerName : string) : string :=
  match find (fun n => negb (String.eqb n partnerName)) partnerNames with
  | Some n => if Str.truthy n then n else "your partner"
  | None => "your partner"
  end.

(** What is added to the prompt when the other partner has a summary. *)
Definition summaryOpening (partnerName otherPartnerName summaryText : string)
  : string :=
  Str.nl +++
  Str.nl +++
  "Start the conversation with " +++ partnerName +++ "'s perspective:" +++ Str.nl +++
  Str.dq +++ "Hey " +++ otherPartnerName +++ ", I've already spoken to " +++ partnerName +++ ". Here's what I understand about their perspective:" +++ Str.nl +++
  Str.nl +++
  summaryText +++ Str.nl +++
  Str.nl +++
  "Now I'd love to hear from you. What's been going on from your side?" +++ Str.dq.

(** The value of [selectedPrompt] when the completion is called. *)
Definition selectedPromptOf (db : Database) (session : TherapySession)
  (req : ChatRequest) : string :=
  let partnerNames := partnerNamesOf session in
  let isPartner1 := isPartner1Of partnerNames (partnerName req) in
  let otherPartnerName := otherPartnerNameOf partnerNames (partnerName req) in
  let selectedPrompt :=
    if isPartner1
    then createPartner1Prompt (partnerName req) otherPartnerName
    else createPartner2Prompt (partnerName req) otherPartnerName in
  if negb isPartner1 && String.eqb (userText req) START_CONVERSATION then
    match getPartnerSummary db (sessionId req) otherPartnerName with
    | Some partner1Summary =>
        selectedPrompt +++
        summaryOpening (partnerName req) otherPartnerName
                       (summary_text partner1Summary)
    | None => selectedPrompt
    end
  else selectedPrompt.

(** [partnerOnlyMessages]: the history filter of the route. *)
Definition partnerOnlyMessages (messages : list TherapyMessage)
  (partnerName : string) : list TherapyMessage :=
  filter (fun msg =>
            nameIs msg partnerName
            || (roleEqb (role msg) assistant
                && (nameIsNull msg || nameIs msg partnerName)))
         messages.

(** The role and content pair made of a stored message. *)
Definition toChatMessage (msg : TherapyMessage) : ChatMessage :=
  {| chatRole := chatRoleOf (role msg); content := message msg |}.

(** [conversationHistory]. *)
Definition conversationHistory (messages : list TherapyMessage)
  (partnerName : string) : list ChatMessage :=
  map toChatMessage (partnerOnlyMessages messages partnerName).

(** [chatMessages]: the input of the completion call. *)
Definition chatMessagesOf (db : Database) (session : TherapySession)
  (req : ChatRequest) : list ChatMessage :=
  let selectedPrompt := selectedPromptOf db session req in
  if String.eqb (userText req) START_CONVERSATION
  then [ {| chatRole := systemRole; content := selectedPrompt |};
         {| chatRole := userRole; content := "Please start the conversation" |} ]
  else {| chatRole := systemRole; content := selectedPrompt |}
       :: conversationHistory (messages req) (partnerName req)
       ++ [ {| chatRole := userRole; content := userText req |} ].

Definition summaryMarkers : list string :=
  [ "Here's what I've understood about your side of the story:";
    "Here's what I've understood about their perspective so far";
    "what I've understood about your perspective so far";
    "Here's what I have understood so far from your perspective" ].

(** [hasSummaryFormat]. *)
Definition hasSummaryFormat (aiResponse : string) : bool :=
  existsb (fun marker =>
             Str.includes (Str.toLowerCase aiResponse) (Str.toLowerCase marker))
          summaryMarkers.

(** The value of [summary] in the answer: the completion detector. *)
Definition detectSummary (aiResponse : string) : option string :=
  if hasSummaryFormat aiResponse then Some aiResponse else None.

(** [chatCompletion.choices[0]?.message?.content || "I'm here ..."]. *)
Definition aiResponseOf (text : option string) : string :=
  match text with
  | Some t => if Str.truthy t then t
              else "I'm here to help you work through this."
  | None => "I'm here to help you work through this."
  end.

(** The handler of [POST /api/therapist/chat]. *)
Definition POST (openai : list ChatMessage -> Completion) (db : Database)
  (req : ChatRequest) : ChatResponse :=
  if negb (Str.truthy (sessionId req))
     || negb (Str.truthy (partnerName req))
     || negb (Str.truthy (userText req))
  then MissingFields
  else
    match getTherapySession db (sessionId req) with
    | None => SessionNotFound
    | Some session =>
        match openai (chatMessagesOf db session req) with
        | Failed => ServerError
        | Replied text =>
            let aiResponse := aiResponseOf text in
            Ok aiResponse (detectSummary aiResponse)
        end
    end.

End ChatRoute.

(* ===================================================================== *)
(** ** app/api/therapist/create-session/route.ts *)
(* ===================================================================== *)

Module CreateSessionRoute.
Import TherapyService.

Inductive CreateResponse :=
| NamesRequired
| Created (sessionId : string) (partnerNames : option string).

(** The handler of [POST /api/therapist/create-session].  The body's
    [partnerNames] is [None] when it is absent or not a string. *)
Definition POST (db : Database) (newId : string) (partnerNames : option string)
  : Database * CreateResponse :=
  match partnerNames with
  | None => (db, NamesRequired)
  | Some names =>
      if negb (Str.truthy names) then (db, NamesRequired)
      else
        let '(db', session) := createTherapySession db newId names in
        (db', Created (id session) (partner_names session))
  end.

End CreateSessionRoute.

(* ===================================================================== *)
(** ** app/therapist/chat/[session_id]/page.tsx *)
(* ===================================================================== *)

Module ChatPage.
Import TherapyService.

(** The state loop of [filterMessagesByPartner]: [before] is
    [messages.slice(0, i)], [rest] is what is still to be visited. *)
Fixpoint filterLoop (partnerName : string) (before rest : list TherapyMessage)
  (partnerMessages : list TherapyMessage) (expectingAIResponse : bool)
  : list TherapyMessage :=
  match rest with
  | [] => partnerMessages
  | msg :: rest' =>
      let before' := before ++ [msg] in
      if roleEqb (role msg) user && nameIs msg partnerName then
        filterLoop partnerName before' rest' (partnerMessages ++ [msg]) true
      else if roleEqb (role msg) assistant && expectingAIResponse then
        filterLoop partnerName before' rest' (partnerMessages ++ [msg]) false
      else if roleEqb (role msg) assistant
              && (length partnerMessages =? 0) then
        let hasUserMessagesBefore :=
          existsb (fun m => roleEqb (role m) user && nameIs m partnerName)
                  before in
        if negb hasUserMessagesBefore
        then filterLoop partnerName before' rest' (partnerMessages ++ [msg])
                        expectingAIResponse
        else filterLoop partnerName before' rest' partnerMessages
                        expectingAIResponse
      else if roleEqb (role msg) assistant && nameIs msg "SOLUTION" then
        filterLoop partnerName before' rest' (partnerMessages ++ [msg])
                   expectingAIResponse
      else
        filterLoop partnerName before' rest' partnerMessages
                   expectingAIResponse
  end.

(** [filterMessagesByPartner], the thread partitioner of the page. *)
Definition filterMessagesByPartner (messages : list TherapyMessage)
  (partnerName : string) : list TherapyMessage :=
  filterLoop partnerName [] messages [] false.

(** The part of the component's state that decides what is stored.  State
    that is only rendered (the partner cards, the displayed solution, the
    other partner's summary) is left out. *)
Record PageState := {
  session : option TherapySession;
  selectedPartner : option string;
  messages : list TherapyMessage;
  input : string;
  isLoading : bool;
  hasStartedChatting : bool;
  currentPartnerCompleted : bool;
  bothPartnersCompleted : bool;
  allMessages : list TherapyMessage
}.

(** The state of the first render. *)
Definition initialState : PageState :=
  {| session := None; selectedPartner := None; messages := []; input := "";
     isLoading := false; hasStartedChatting := false;
     currentPartnerCompleted := false; bothPartnersCompleted := false;
     allMessages := [] |}.

Definition setSession (v : option TherapySession) (st : PageState) :=
  {| session := v; selectedPartner := selectedPartner st;
     messages := messages st; input := input st; isLoading := isLoading st;
     hasStartedChatting := hasStartedChatting st;
     currentPartnerCompleted := currentPartnerCompleted st;
     bothPartnersCompleted := bothPartnersCompleted st;
     allMessages := allMessages st |}.

Definition setSelectedPartner (v : option string) (st : PageState) :=
  {| session := session st; selectedPartner := v;
     messages := messages st; input := input st; isLoading := isLoading st;
     hasStartedChatting := hasStartedChatting st;
     currentPartnerCompleted := currentPartnerCompleted st;
     bothPartnersCompleted := bothPartnersCompleted st;
     allMessages := allMessages st |}.

Definition setMessages (v : list TherapyMessage) (st : PageState) :=
  {| session := session st; selectedPartner := selectedPartner st;
     messages := v; input := input st; isLoading := isLoading st;
     hasStartedChatting := hasStartedChatting st;
     currentPartnerCompleted := currentPartnerCompleted st;
     bothPartnersCompleted := bothPartnersCompleted st;
     allMessages := allMessages st |}.

Definition setInput (v : string) (st : PageState) :=
  {| session := session st; selectedPartner := selectedPartner st;
     messages := messages st; input := v; isLoading := isLoading st;
     hasStartedChatting := hasStartedChatting st;
     currentPartnerCompleted := currentPartnerCompleted st;
     bothPartnersCompleted := bothPartnersCompleted st;
     allMessages := allMessages st |}.

Definition setIsLoading (v : bool) (st : PageState) :=
  {| session := session st; selectedPartner := selectedPartner st;
     messages := messages st; input := input st; isLoading := v;
     hasStartedChatting := hasStartedChatting st;
     currentPartnerCompleted := currentPartnerCompleted st;
     bothPartnersCompleted := bothPartnersCompleted st;
     allMessages := allMessages st |}.

Definition setHasStartedChatting (v : bool) (st : PageState) :=
  {| session := session st; selectedPartner := selectedPartner st;
     messages := messages st; input := input st; isLoading := isLoading st;
     hasStartedChatting := v;
     currentPartnerCompleted := currentPartnerCompleted st;
     bothPartnersCompleted := bothPartnersCompleted st;
     allMessages := allMessages st |}.

Definition setCurrentPartnerCompleted (v : bool) (st : PageState) :=
  {| session := session st; selectedPartner := selectedPartner st;
     messages := messages st; input := input st; isLoading := isLoading st;
     hasStartedChatting := hasStartedChatting st;
     currentPartnerCompleted := v;
     bothPartnersCompleted := bothPartnersCompleted st;
     allMessages := allMessages st |}.

Definition setBothPartnersCompleted (v : bool) (st : PageState) :=
  {| session := session st; selectedPartner := selectedPartner st;
     messages := messages st; input := input st; isLoading := isLoading st;
     hasStartedChatting := hasStartedChatting st;
     currentPartnerCompleted := currentPartnerCompleted st;
     bothPartnersCompleted := v;
     allMessages := allMessages st |}.

Definition setAllMessages (v : list TherapyMessage) (st : PageState) :=
  {| session := session st; selectedPartner := selectedPartner st;
     messages := messages st; input := input st; isLoading := isLoading st;
     hasStartedChatting := hasStartedChatting st;
     currentPartnerCompleted := currentPartnerCompleted st;
     bothPartnersCompleted := bothPartnersCompleted st;
     allMessages := v |}.

(** The heading put before the summary text in the solution message. *)
Definition solutionHeading : string :=
  "ðŸŽ¯ **Final Solution & Recommendations**" +++ Str.nl +++ Str.nl.

(** The message the coordinator stores for a chosen summary. *)
Definition solutionMessageOf (sessionId : string) (solution : PartnerSummary)
  : TherapyMessage :=
  {| session_id := sessionId;
     message := solutionHeading +++ summary_text solution;
     role := assistant;
     name := Some "SOLUTION" |}.

(** [s.partner_name === partnerNames[1]], where the right side may be
    [undefined]. *)
Definition isSummaryOf (partner2Name : option string) (s : PartnerSummary)
  : bool :=
  match partner2Name with
  | Some n => String.eqb (partner_name s) n
  | None => false
  end.

(** [checkBothPartnersCompleted], the session completion coordinator. *)
Definition checkBothPartnersCompleted (sessionId : string) (st : PageState)
  (db : Database) : PageState * Database :=
  match session st with
  | None => (st, db)
  | Some sess =>
      if bothPartnersCompleted st then (st, db)
      else
        let summaries := getSessionSummaries db sessionId in
        let partnerNames := partnerNamesOf sess in
        if (2 <=? length summaries) && negb (bothPartnersCompleted st) then
          let messagesToCheck :=
            if 0 <? length (allMessages st) then allMessages st
            else getAllSessionMessages db sessionId in
          let solutionExists :=
            existsb (fun msg => nameIs msg "SOLUTION") messagesToCheck in
          if solutionExists then (setBothPartnersCompleted true st, db)
          else
            let st1 := setBothPartnersCompleted true st in
            let partner2Name := nth_error partnerNames 1 in
            match find (isSummaryOf partner2Name) summaries with
            | Some solution =>
                let solutionMessage := solutionMessageOf sessionId solution in
                let db1 := saveTherapyMessage db solutionMessage in
                let shown :=
                  match selectedPartner st with
                  | Some p =>
                      Str.truthy p
                      && negb (existsb (fun msg => nameIs msg "SOLUTION")
                                       (messages st))
                  | None => false
                  end in
                if shown
                then (setMessages (messages st ++ [solutionMessage]) st1, db1)
                else (st1, db1)
            | None => (st1, db)
            end
        else (st, db)
  end.

(** [initializeSession], run by the effect of the first render [st0];
    [storedPartner] is the entry of the local storage.  The conversation
    the page starts by itself for the creator of the session is a later
    event.  [None] is the failure toast for an unknown session. *)
Definition initializeSession (sessionId : string)
  (storedPartner : option string) (isNewUser : bool) (st0 : PageState)
  (db : Database) : option (PageState * Database) :=
  match getTherapySession db sessionId with
  | None => None
  | Some sessionData =>
      let st := setSession (Some sessionData) st0 in
      let partnerNames := partnerNamesOf sessionData in
      let isReturningUser :=
        match storedPartner with
        | Some p => Str.truthy p && existsb (String.eqb p) partnerNames
        | None => false
        end in
      match storedPartner, isReturningUser with
      | Some stored, true =>
          let st := setSelectedPartner (Some stored) st in
          let partnerHistory :=
            getTherapyChatHistory db sessionId (Some stored) in
          let st := setMessages partnerHistory st in
          let st := setAllMessages partnerHistory st in
          let partnerMessages :=
            filter (fun msg => nameIs msg stored) partnerHistory in
          let st := setHasStartedChatting (0 <? length partnerMessages) st in
          let hasSolution :=
            existsb (fun msg => nameIs msg "SOLUTION") partnerHistory in
          let st := if hasSolution then setBothPartnersCompleted true st
                    else st in
          let currentPartnerSummary :=
            getPartnerSummary db sessionId stored in
          let st :=
            setCurrentPartnerCompleted
              (match currentPartnerSummary with Some _ => true | None => false end)
              st in
          (* the callback of the first render, which sees [st0] *)
          let '(_, db') := checkBothPartnersCompleted sessionId st0 db in
          Some (st, db')
      | _, _ =>
          let allSessionMessages := getAllSessionMessages db sessionId in
          let st := setAllMessages allSessionMessages st in
          let usedPartnerNames :=
            flat_map (fun msg =>
                        match name msg with
                        | Some n => if Str.truthy n && roleEqb (role msg) user
                                    then [n] else []
                        | None => []
                        end)
                     allSessionMessages in
          if isNewUser then Some (st, db)
          else
            match nth_error partnerNames 0 with
            | Some firstPartnerName =>
                if Str.truthy firstPartnerName
                   && negb (existsb (String.eqb firstPartnerName)
                                    usedPartnerNames)
                then Some (setSelectedPartner (Some firstPartnerName) st, db)
                else Some (st, db)
            | None => Some (st, db)
            end
      end
  end.

(** How [handleSubmit] ends. *)
Inductive Outcome :=
| Ignored
| Replied (coordinatorScheduled : bool)
| ErrorToast.

(** [handleSubmit]: one turn of the selected partner.  [openai] is the
    completion call behind the chat route. *)
Definition handleSubmit
  (openai : list ChatRoute.ChatMessage -> ChatRoute.Completion)
  (sessionId : string) (st : PageState) (db : Database)
  : PageState * Database * Outcome :=
  match selectedPartner st with
  | None => (st, db, Ignored)
  | Some partner =>
      if negb (Str.truthy (Str.trim (input st)))
         || isLoading st
         || negb (Str.truthy partner)
      then (st, db, Ignored)
      else
        let userMessage :=
          {| session_id := sessionId; message := input st;
             role := user; name := Some partner |} in
        let st1 :=
          setHasStartedChatting true
            (setIsLoading true
               (setInput ""
                  (setMessages (messages st ++ [userMessage]) st))) in
        (* Save user message *)
        let db1 := saveTherapyMessage db userMessage in
        (* Get AI response *)
        match ChatRoute.POST openai db1
                {| ChatRoute.sessionId := sessionId;
                   ChatRoute.partnerName := partner;
                   ChatRoute.userText := input st;
                   ChatRoute.messages := messages st ++ [userMessage] |} with
        | ChatRoute.Ok aiMessage summary =>
            let assistantMessage :=
              {| session_id := sessionId; message := aiMessage;
                 role := assistant; name := Some partner |} in
            let st2 := setMessages (messages st1 ++ [assistantMessage]) st1 in
            let db2 := saveTherapyMessage db1 assistantMessage in
            match summary with
            | Some text =>
                if Str.truthy text then
                  let db3 :=
                    savePartnerSummary db2
                      {| summary_session_id := sessionId;
                         partner_name := partner;
                         summary_text := text |} in
                  (setIsLoading false (setCurrentPartnerCompleted true st2),
                   db3, Replied true)
                else (setIsLoading false st2, db2, Replied false)
            | None => (setIsLoading false st2, db2, Replied false)
            end
        | _ => (setIsLoading false st1, db1, ErrorToast)
        end
  end.

End ChatPage.

(* ===================================================================== *)
(** ** app/page.tsx *)
(* ===================================================================== *)

Module Home.
Import TherapyService.

(** How [handleStartSession] ends. *)
Inductive StartOutcome :=
| MissingInformation
| CreateFailed
| Navigated (sessionId : string).

(** [handleStartSession]: the form sends both trimmed names joined by
    the separator to the create-session route. *)
Definition handleStartSession (db : Database) (newId : string)
  (partner1Name partner2Name : string) : Database * StartOutcome :=
  if negb (Str.truthy (Str.trim partner1Name))
     || negb (Str.truthy (Str.trim partner2Name))
  then (db, MissingInformation)
  else
    match CreateSessionRoute.POST db newId
            (Some (Str.trim partner1Name +++ " & " +++ Str.trim partner2Name))
    with
    | (db', CreateSessionRoute.Created sessionId _) => (db', Navigated sessionId)
    | (db', CreateSessionRoute.NamesRequired) => (db', CreateFailed)
    end.

End Home.

(* ===================================================================== *)
(** ** Vocabulary of the properties *)
(* ===================================================================== *)

Module Vocabulary.
Import TherapyService.

(** [msg.role === 'user' && msg.name === partnerName]. *)
Definition isUserOf (partnerName : string) (msg : TherapyMessage) : bool :=
  roleEqb (role msg) user && nameIs msg partnerName.

(** A shared solution entry: an assistant message labelled SOLUTION. *)
Definition isSolutionEntry (msg : TherapyMessage) : bool :=
  roleEqb (role msg) assistant && nameIs msg "SOLUTION".

(** The page's partitioner as a state machine over the rest of the log:
    [started] says that an entry was already taken, [expecting] that a
    message of the partner waits for its reply. *)
Fixpoint threadGo (partnerName : string) (started expecting : bool)
  (rest : list TherapyMessage) : list TherapyMessage :=
  match rest with
  | [] => []
  | msg :: rest' =>
      if isUserOf partnerName msg then
        msg :: threadGo partnerName true true rest'
      else if roleEqb (role msg) assistant && expecting then
        msg :: threadGo partnerName true false rest'
      else if roleEqb (role msg) assistant && negb started then
        msg :: threadGo partnerName true expecting rest'
      else if isSolutionEntry msg then
        msg :: threadGo partnerName true expecting rest'
      else threadGo partnerName started expecting rest'
  end.

(** The service's filter read with the previous entry at hand. *)
Definition keepAfter (partnerName : string) (prev : option TherapyMessage)
  (msg : TherapyMessage) : bool :=
  isUserOf partnerName msg
  || (roleEqb (role msg) assistant
      && match prev with
         | None => true
         | Some q => isUserOf partnerName q
         end).

Fixpoint histGo (partnerName : string) (prev : option TherapyMessage)
  (rest : list TherapyMessage) : list TherapyMessage :=
  match rest with
  | [] => []
  | msg :: rest' =>
      if keepAfter partnerName prev msg
      then msg :: histGo partnerName (Some msg) rest'
      else histGo partnerName (Some msg) rest'
  end.

(** [l1] is [l2] with some entries left out, order kept. *)
Inductive Subseq {A : Type} : list A -> list A -> Prop :=
| Subseq_nil : Subseq [] []
| Subseq_keep : forall x l1 l2, Subseq l1 l2 -> Subseq (x :: l1) (x :: l2)
| Subseq_drop : forall x l1 l2, Subseq l1 l2 -> Subseq l1 (x :: l2).

(** No assistant entry directly follows another assistant entry. *)
Fixpoint noAdjacentAssistants (log : list TherapyMessage) : bool :=
  match log with
  | m1 :: ((m2 :: _) as rest) =>
      negb (roleEqb (role m1) assistant && roleEqb (role m2) assistant)
      && noAdjacentAssistants rest
  | _ => true
  end.

(** The log of one partner alone: every user entry is the partner's and
    no assistant entry is labelled SOLUTION. *)
Definition ownLog (partnerName : string) (log : list TherapyMessage) : bool :=
  forallb (fun m => match role m with
                    | user => nameIs m partnerName
                    | assistant => negb (nameIs m "SOLUTION")
                    end) log.

(** Two characters that are the same letter up to case. *)
Definition sameLetter (c1 c2 : ascii) : Prop :=
  c1 = c2
  \/ (Str.isUpper c1 = true /\ nat_of_ascii c2 = nat_of_ascii c1 + 32)
  \/ (Str.isUpper c2 = true /\ nat_of_ascii c1 = nat_of_ascii c2 + 32).

(** Two strings equal up to the case of their letters. *)
Inductive eqIgnoreCase : string -> string -> Prop :=
| eqic_nil : eqIgnoreCase EmptyString EmptyString
| eqic_cons : forall c1 c2 s1 s2,
    sameLetter c1 c2 -> eqIgnoreCase s1 s2 ->
    eqIgnoreCase (String c1 s1) (String c2 s2).

(** [reply] contains [marker] in some letter-casing. *)
Definition containsIgnoreCase (reply marker : string) : Prop :=
  exists pre mid post,
    reply = pre +++ mid +++ post /\ eqIgnoreCase mid marker.

(** The shared solution entries of a session in the stored log. *)
Definition solutionEntries (db : Database) (sessionId : string)
  : list TherapyMessage :=
  filter (fun m => nameIs m "SOLUTION") (getAllSessionMessages db sessionId).

(** The summary rows stored for a partner of a session. *)
Definition summaryRows (db : Database) (sessionId partnerName : string)
  : list PartnerSummary :=
  filter (fun s => String.eqb (summary_session_id s) sessionId
                   && String.eqb (partner_name s) partnerName)
         (summaries db).




End Vocabulary.

(* ===================================================================== *)
(** ** A session of Alice and Bob *)
(* ===================================================================== *)

Module Scenario.
Import TherapyService.

Definition sid : string := "s1".

Definition aliceAndBob : TherapySession :=
  {| id := sid; user_id := None; has_summary := false; summary := None;
     session_type := THERAPY; partner_names := Some "Alice & Bob" |}.

Definition say (r : Role) (who text : string) : TherapyMessage :=
  {| session_id := sid; message := text; role := r; name := Some who |}.

Definition aliceOpener := say assistant "Alice" "Hey Alice, what's on your mind?".
Definition aliceSays := say user "Alice" "We keep arguing about chores.".
Definition aliceReply :=
  say assistant "Alice"
      "Here's what I have understood so far from your perspective: chores feel unfair.".
Definition bobOpener := say assistant "Bob" "Hey Bob, I've already spoken to Alice.".
Definition bobSays := say user "Bob" "I work late, I am tired.".
Definition bobReply :=
  say assistant "Bob"
      "Here's what I've understood about your side of the story: you feel unseen.".

(** The log once both partners have talked, in order of arrival. *)
Definition talkLog : list TherapyMessage :=
  [aliceOpener; aliceSays; aliceReply; bobOpener; bobSays; bobReply].

Definition aliceSummary : PartnerSummary :=
  {| summary_session_id := sid; partner_name := "Alice";
     summary_text := message aliceReply |}.

Definition bobSummary : PartnerSummary :=
  {| summary_session_id := sid; partner_name := "Bob";
     summary_text := message bobReply |}.

(** Both partners have a summary, no solution was stored yet. *)
Definition bothSummarized : Database :=
  {| chat_sessions := [aliceAndBob];
     chat_messages := talkLog;
     summaries := [aliceSummary; bobSummary] |}.

(** Only Bob has summaries, two of them. *)
Definition bobTwice : Database :=
  {| chat_sessions := [aliceAndBob];
     chat_messages := talkLog;
     summaries := [bobSummary; bobSummary] |}.

(** Only Alice has talked. *)
Definition aliceOnly : Database :=
  {| chat_sessions := [aliceAndBob];
     chat_messages := [aliceOpener; aliceSays; aliceReply];
     summaries := [aliceSummary] |}.

(** The solution entry derived from Bob's summary. *)
Definition solutionEntry : TherapyMessage :=
  ChatPage.solutionMessageOf sid bobSummary.

(** The page of a partner who comes back to it, as [initializeSession]
    sets it up from the database [db]. *)
Definition returningPage (who : string) (db : Database) : ChatPage.PageState :=
  match ChatPage.initializeSession sid (Some who) false
          ChatPage.initialState db with
  | Some (st, _) => st
  | None => ChatPage.initialState
  end.

Definition bobsPage (db : Database) : ChatPage.PageState :=
  returningPage "Bob" db.

(** Alice came back to her page when only she had talked, and waits
    there for Bob: the page goes on polling with this state. *)
Definition alicesPage : ChatPage.PageState := returningPage "Alice" aliceOnly.

(** A completion call that always throws. *)
Definition openaiDown (_ : list ChatRoute.ChatMessage) : ChatRoute.Completion :=
  ChatRoute.Failed.

(** Bob's page with a message typed in. *)
Definition bobTyping (db : Database) : ChatPage.PageState :=
  ChatPage.setInput "It is not only me." (bobsPage db).

End Scenario.

(* ===================================================================== *)
(** ** Further string operations of the page *)
(* ===================================================================== *)

Module StrOps.

(** [s.slice(n)]: the string without its first [n] characters. *)
Fixpoint drop (n : nat) (s : string) : string :=
  match n, s with
  | O, _ => s
  | S _, EmptyString => EmptyString
  | S k, String _ s' => drop k s'
  end.

(** [s.slice(0, n)]. *)
Fixpoint take (n : nat) (s : string) : string :=
  match n, s with
  | O, _ => EmptyString
  | S _, EmptyString => EmptyString
  | S k, String c s' => String c (take k s')
  end.

(** [String.prototype.replace] with a string pattern: the first
    occurrence of [pattern] is replaced, the rest is kept. *)
Fixpoint replace (pattern replacement s : string) : string :=
  if prefix pattern s then replacement +++ drop (String.length pattern) s
  else
    match s with
    | EmptyString => EmptyString
    | String c s' => String c (replace pattern replacement s')
    end.

(** [String.prototype.startsWith]. *)
Definition startsWith (s p : string) : bool := prefix p s.

(** [String.prototype.endsWith]. *)
Definition endsWith (s p : string) : bool :=
  (String.length p <=? String.length s)
  && String.eqb (drop (String.length s - String.length p) s) p.

(** [s.slice(2, -2)]: from the third character to the third last. *)
Definition slice2 (s : string) : string :=
  take (String.length s - 2 - 2) (drop 2 s).

(** [Array.prototype.join]. *)
Fixpoint join (sep : string) (l : list string) : string :=
  match l with
  | [] => EmptyString
  | [x] => x
  | x :: l' => x +++ sep +++ join sep l'
  end.

Definition isStar (c : ascii) : bool := Ascii.eqb c "*"%char.

(** The longest run of characters other than [*] at the start. *)
Fixpoint starFreeRun (s : string) : string :=
  match s with
  | EmptyString => EmptyString
  | String c s' => if isStar c then EmptyString else String c (starFreeRun s')
  end.

(** A match, at the start of [s], of the pattern of the bold text: two
    stars, one or more characters other than a star, two stars.  The
    result is the text between the two pairs of stars. *)
Definition boldAt (s : string) : option string :=
  match s with
  | String c1 (String c2 t) =>
      if isStar c1 && isStar c2 then
        let inner := starFreeRun t in
        if String.eqb inner EmptyString then None
        else if prefix "**" (drop (String.length inner) t) then Some inner
        else None
      else None
  | _ => None
  end.

(** [line.split] on that pattern, written as a capturing group: the
    pieces between the matches, taken from left to right, with every
    match kept as a piece of its own.  [skip] counts the characters of a
    match still to be passed. *)
Fixpoint splitBoldGo (skip : nat) (cur : string) (s : string) : list string :=
  match s with
  | EmptyString => [cur]
  | String c s' =>
      match skip with
      | S k => splitBoldGo k cur s'
      | O =>
          match boldAt s with
          | Some inner =>
              cur :: ("**" +++ inner +++ "**")
                  :: splitBoldGo (String.length inner + 3) EmptyString s'
          | None => splitBoldGo 0 (cur +++ String c EmptyString) s'
          end
      end
  end.

Definition splitBold (line : string) : list string :=
  splitBoldGo 0 EmptyString line.

End StrOps.

(* ===================================================================== *)
(** ** page.tsx: the openers, the shown solution, the shown text *)
(* ===================================================================== *)

Module ChatPageEvents.
Import TherapyService ChatPage.

(** The request with which the page asks for the opening message. *)
Definition openerRequest (sessionId partnerName : string)
  : ChatRoute.ChatRequest :=
  {| ChatRoute.sessionId := sessionId;
     ChatRoute.partnerName := partnerName;
     ChatRoute.userText := "START_CONVERSATION";
     ChatRoute.messages := [] |}.

(** What both openers do once the state is reset: when the route
    answers, the reply is shown and stored as the partner's assistant
    message; the [summary] of the answer is not read.  Any failure is
    only logged. *)
Definition fetchOpener
  (openai : list ChatRoute.ChatMessage -> ChatRoute.Completion)
  (sessionId partnerName : string) (st : PageState) (db : Database)
  : PageState * Database :=
  match ChatRoute.POST openai db (openerRequest sessionId partnerName) with
  | ChatRoute.Ok aiMessage _ =>
      let assistantMessage :=
        {| session_id := sessionId; message := aiMessage;
           role := assistant; name := Some partnerName |} in
      (setMessages [assistantMessage] st,
       saveTherapyMessage db assistantMessage)
  | _ => (st, db)
  end.

(** [autoStartConversation], for the creator of the session. *)
Definition autoStartConversation
  (openai : list ChatRoute.ChatMessage -> ChatRoute.Completion)
  (sessionId partnerName : string) (st : PageState) (db : Database)
  : PageState * Database :=
  fetchOpener openai sessionId partnerName
    (setHasStartedChatting true (setMessages [] st)) db.

(** [handlePartnerSelect], for the partner who picks a name; the name is
    also written to the local storage, from where [initializeSession]
    gets it as [storedPartner].  The page state is the one the handler
    itself sets; the effect that loads the history once the partner is
    selected is another event, which may run while the route is
    awaited. *)
Definition handlePartnerSelect
  (openai : list ChatRoute.ChatMessage -> ChatRoute.Completion)
  (sessionId partnerName : string) (st : PageState) (db : Database)
  : PageState * Database :=
  fetchOpener openai sessionId partnerName
    (setHasStartedChatting true
       (setMessages [] (setSelectedPartner (Some partnerName) st))) db.

(** [solutionMsg.message.replace(heading, '')]: the text the page shows
    as the final solution of a stored solution message. *)
Definition solutionTextOf (solutionMsg : TherapyMessage) : string :=
  StrOps.replace
    ("ðŸŽ¯ **Final Solution & Recommendations**" +++ Str.nl +++ Str.nl)
    EmptyString (message solutionMsg).

(** A piece of a shown line. *)
Inductive Part := Plain (text : string) | Bold (text : string).

(** The callback that turns a piece of a line into what is shown. *)
Definition partOf (part : string) : Part :=
  if StrOps.startsWith part "**" && StrOps.endsWith part "**"
  then Bold (StrOps.slice2 part)
  else Plain part.

(** [formatMessageContent]: the lines of the content, each one as its
    pieces; a line break is shown between two lines. *)
Definition formatMessageContent (content : string) : list (list Part) :=
  map (fun line => map partOf (StrOps.splitBold line))
      (Str.split Str.nl content).

(** The link the creator of the session shares. *)
Definition shareableLink (origin sessionId : string) : string :=
  origin +++ "/therapist/chat/" +++ sessionId +++ "?new=true".

End ChatPageEvents.

(* ===================================================================== *)
(** ** Further vocabulary *)
(* ===================================================================== *)

Module Notions.
Import TherapyService Vocabulary.

(** A string of white space characters only, the empty string
    included. *)
Inductive Blank : string -> Prop :=
| Blank_nil : Blank EmptyString
| Blank_cons : forall w s,
    In w Str.whiteSpace -> Blank s -> Blank (w +++ s).

(** No character of the string is [c]. *)
Fixpoint without (c : ascii) (s : string) : bool :=
  match s with
  | EmptyString => true
  | String d s' => negb (Ascii.eqb d c) && without c s'
  end.

(** [n] calls of the coordinator in a row on one page. *)
Fixpoint pollTimes (n : nat) (sessionId : string)
  (page : ChatPage.PageState * Database) : ChatPage.PageState * Database :=
  match n with
  | O => page
  | S k =>
      pollTimes k sessionId
        (ChatPage.checkBothPartnersCompleted sessionId (fst page) (snd page))
  end.

(** What a partner who has written nothing gets: the first assistant
    entry of the log and the solution entries after it. *)
Fixpoint silentThread (log : list TherapyMessage) : list TherapyMessage :=
  match log with
  | [] => []
  | msg :: rest =>
      if roleEqb (role msg) assistant
      then msg :: filter isSolutionEntry rest
      else silentThread rest
  end.

(** [msg.role === 'user']. *)
Definition isUser (m : TherapyMessage) : bool := roleEqb (role m) user.

(** The last entry of a log that comes after the entry [prev]. *)
Definition lastAfter (prev : option TherapyMessage)
  (log : list TherapyMessage) : option TherapyMessage :=
  fold_left (fun _ m => Some m) log prev.

(** The last entry of a log. *)
Definition lastOf (log : list TherapyMessage) : option TherapyMessage :=
  lastAfter None log.

(** The text a shown piece stands for. *)
Definition textOf (p : ChatPageEvents.Part) : string :=
  match p with
  | ChatPageEvents.Plain t => t
  | ChatPageEvents.Bold t => t
  end.

(** The text of a shown message: the pieces of a line one after the
    other, the lines separated by the line break. *)
Definition shownText (lines : list (list ChatPageEvents.Part)) : string :=
  StrOps.join Str.nl
    (map (fun line => fold_right (fun p acc => textOf p +++ acc)
                                 EmptyString line)
         lines).

End Notions.

(* ===================================================================== *)
(** ** More states of the session of Alice and Bob *)
(* ===================================================================== *)

Module MoreScenario.
Import TherapyService Scenario.

(** Both partners have talked, and both summary rows are Alice's. *)
Definition aliceTwice : Database :=
  {| chat_sessions := [aliceAndBob];
     chat_messages := talkLog;
     summaries := [aliceSummary; aliceSummary] |}.

(** Another session, of Carol and Dan, with a message of Carol. *)
Definition otherSid : string := "s2".

Definition withOtherSession : Database :=
  {| chat_sessions :=
       [aliceAndBob;
        {| id := otherSid; user_id := None; has_summary := false;
           summary := None; session_type := THERAPY;
           partner_names := Some "Carol & Dan" |}];
     chat_messages :=
       talkLog ++ [ {| session_id := otherSid; message := "Hello.";
                       role := user; name := Some "Carol" |} ];
     summaries := [aliceSummary] |}.

(** Both partners have talked and the solution entry is stored. *)
Definition solved : Database :=
  {| chat_sessions := [aliceAndBob];
     chat_messages := talkLog ++ [solutionEntry];
     summaries := [aliceSummary; bobSummary] |}.

(** Alice is in the middle of her talk: the opener, one message of hers
    and a reply that is no summary are stored. *)
Definition aliceAsked :=
  say assistant "Alice" "How long has this been going on?".

Definition aliceTalking : Database :=
  {| chat_sessions := [aliceAndBob];
     chat_messages := [aliceOpener; aliceSays; aliceAsked];
     summaries := [] |}.

(** Alice is back on her page, which shows the form, and has typed her
    next message. *)
Definition aliceTyping : ChatPage.PageState :=
  ChatPage.setInput "For about a year." (returningPage "Alice" aliceTalking).





(** A completion call that always answers with the same text. *)
Definition openaiSays (text : string) (_ : list ChatRoute.ChatMessage)
  : ChatRoute.Completion :=
  ChatRoute.Replied (Some text).

End MoreScenario.

(* ===================================================================== *)
(** ** Properties of the string operations *)
(* ===================================================================== *)

Module StrFacts.
Import Str.

Example split_two : split " & " "Alice & Bob" = ["Alice"; "Bob"].
Proof. reflexivity. Qed.

Example split_three : split " & " "A & B & C" = ["A"; "B"; "C"].
Proof. reflexivity. Qed.

Example split_trailing : split " & " "A & " = ["A"; ""].
Proof. reflexivity. Qed.

Example split_empty : split " & " "" = [""].
Proof. reflexivity. Qed.

Example trim_both : trim "  Al ice  " = "Al ice".
Proof. reflexivity. Qed.

(** The no-break space U+00A0 and the ideographic space U+3000 are
    trimmed as well. *)
Example trim_no_break_space :
  trim (utf8 [194; 160] +++ "Al" +++ utf8 [227; 128; 128]) = "Al".
Proof. reflexivity. Qed.

(** A byte of another character is not taken for white space: U+00E0,
    whose encoding ends with the byte 160, stays. *)
Example trim_keeps_letters :
  trim (" " +++ utf8 [195; 160] +++ " ") = utf8 [195; 160].
Proof. reflexivity. Qed.

Example trim_tabs_and_lines :
  trim (utf8 [9; 10; 11; 12; 13; 32]) = "".
Proof. reflexivity. Qed.

Lemma truthy_true (s : string) : truthy s = true <-> s <> "".
Proof.
  unfold truthy. rewrite negb_true_iff. split.
  - intros H ->. discriminate.
  - intros H. apply String.eqb_neq. exact H.
Qed.

Lemma append_assoc (a b c : string) : (a +++ b) +++ c = a +++ b +++ c.
Proof. induction a as [|x a IH]; simpl; [reflexivity|now rewrite IH]. Qed.

End StrFacts.

(* ===================================================================== *)
(** ** Trimming and blank strings *)
(* ===================================================================== *)

Module TrimFacts.
Import Str Notions.

Lemma leads_prefix (w : string) :
  forall s, leads w s = true -> exists t, s = w +++ t.
Proof.
  induction w as [|a w IH]; intros s H.
  - now exists s.
  - destruct s as [|b s]; [discriminate|].
    simpl in H. apply andb_true_iff in H as [Hab Hrest].
    apply Ascii.eqb_eq in Hab. subst b.
    destruct (IH s Hrest) as [t ->]. now exists t.
Qed.

Lemma spaceAt_Some (s w : string) :
  spaceAt s = Some w -> In w whiteSpace /\ exists t, s = w +++ t.
Proof.
  unfold spaceAt. intros H. apply find_some in H as [Hin Hleads].
  split; [exact Hin|]. now apply leads_prefix.
Qed.

(** A white space character at the start is passed. *)
Lemma trimStart_white (w s : string) :
  In w whiteSpace -> trimStart (w +++ s) = trimStart s.
Proof.
  intros Hin. unfold whiteSpace in Hin. simpl in Hin.
  repeat (destruct Hin as [<-|Hin]; [reflexivity|]).
  destruct Hin.
Qed.

Lemma white_length (w : string) :
  In w whiteSpace -> 0 < String.length w.
Proof.
  intros Hin. unfold whiteSpace in Hin. simpl in Hin.
  repeat (destruct Hin as [<-|Hin]; [simpl; lia|]).
  destruct Hin.
Qed.

Lemma length_app (a b : string) :
  String.length (a +++ b) = String.length a + String.length b.
Proof. induction a as [|x a IH]; simpl; [reflexivity|now rewrite IH]. Qed.

(** One step of [trimStart]: either the string starts with a white space
    character, which is passed, or nothing is removed. *)
Lemma trimStart_cases (s : string) :
  (exists w t, In w whiteSpace /\ s = w +++ t
               /\ trimStart s = trimStart t)
  \/ trimStart s = s.
Proof.
  destruct s as [|c s]; [now right|].
  destruct (spaceAt (String c s)) as [w|] eqn:Hat.
  - left. destruct (spaceAt_Some _ _ Hat) as [Hin [t Ht]].
    exists w, t. split; [exact Hin|]. split; [exact Ht|].
    rewrite Ht. now apply trimStart_white.
  - right. unfold trimStart. simpl trimStartGo. now rewrite Hat.
Qed.

Lemma Blank_trimStart (s : string) : Blank s -> trimStart s = "".
Proof.
  induction 1 as [|w s Hin _ IH]; [reflexivity|].
  now rewrite trimStart_white.
Qed.

Lemma trimStart_Blank_bounded (n : nat) :
  forall s, String.length s < n -> trimStart s = "" -> Blank s.
Proof.
  induction n as [|n IH]; intros s Hlen Hs; [lia|].
  destruct (trimStart_cases s) as [(w & t & Hin & -> & Hstep)|Hsame].
  - apply Blank_cons; [exact Hin|]. apply IH.
    + pose proof (white_length w Hin). rewrite length_app in Hlen. lia.
    + now rewrite <- Hstep.
  - rewrite Hsame in Hs. subst s. constructor.
Qed.

(** [trimStart] leaves nothing exactly of a blank string. *)
Lemma trimStart_empty (s : string) : trimStart s = "" <-> Blank s.
Proof.
  split; [|apply Blank_trimStart].
  apply (trimStart_Blank_bounded (S (String.length s))). lia.
Qed.

Lemma trimStart_idempotent_bounded (n : nat) :
  forall s, String.length s < n -> trimStart (trimStart s) = trimStart s.
Proof.
  induction n as [|n IH]; intros s Hlen; [lia|].
  destruct (trimStart_cases s) as [(w & t & Hin & -> & Hstep)|Hsame].
  - rewrite Hstep. apply IH.
    pose proof (white_length w Hin). rewrite length_app in Hlen. lia.
  - now rewrite Hsame.
Qed.

Lemma trimStart_idempotent (s : string) :
  trimStart (trimStart s) = trimStart s.
Proof.
  apply (trimStart_idempotent_bounded (S (String.length s))). lia.
Qed.

Lemma trimEnd_empty (s : string) : trimEnd s = "" <-> trimStart s = "".
Proof.
  destruct s as [|c s]; [tauto|].
  simpl trimEnd.
  destruct (String.eqb (trimStart (String c s)) "") eqn:He.
  - apply String.eqb_eq in He. tauto.
  - apply String.eqb_neq in He. split; [discriminate|tauto].
Qed.

(** [trim] leaves nothing exactly of a blank string. *)
Lemma trim_empty (s : string) : trim s = "" <-> Blank s.
Proof.
  unfold trim.
  now rewrite trimEnd_empty, trimStart_idempotent, trimStart_empty.
Qed.

(** The test [s.trim()] of the handlers. *)
Lemma truthy_trim (s : string) :
  (Blank s /\ truthy (trim s) = false)
  \/ (~ Blank s /\ truthy (trim s) = true).
Proof.
  destruct (truthy (trim s)) eqn:Ht.
  - right. split; [|reflexivity].
    apply StrFacts.truthy_true in Ht. now rewrite <- trim_empty.
  - left. split; [|reflexivity]. apply trim_empty.
    unfold truthy in Ht. apply negb_false_iff in Ht.
    now apply String.eqb_eq.
Qed.

Lemma truthy_trim_true (s : string) :
  truthy (trim s) = true <-> ~ Blank s.
Proof. rewrite StrFacts.truthy_true, trim_empty. tauto. Qed.

Lemma truthy_trim_false (s : string) :
  truthy (trim s) = false <-> Blank s.
Proof.
  destruct (truthy_trim s) as [[Hb Ht]|[Hb Ht]]; rewrite Ht.
  - tauto.
  - split; [discriminate|tauto].
Qed.

(** A blank string, read from its bytes. *)
Lemma not_Blank_by_trim (s : string) : trim s <> "" -> ~ Blank s.
Proof. now rewrite trim_empty. Qed.

End TrimFacts.

(* ===================================================================== *)
(** ** The thread partitioners *)
(* ===================================================================== *)

Module PartitionerFacts.
Import TherapyService Vocabulary.
Import ChatPage.

Lemma roleEqb_eq (r1 r2 : Role) : roleEqb r1 r2 = true <-> r1 = r2.
Proof. destruct r1, r2; simpl; split; intros; congruence. Qed.

Lemma nameIs_eq (m : TherapyMessage) (s : string) :
  nameIs m s = true <-> name m = Some s.
Proof.
  unfold nameIs. destruct (name m) as [n|].
  - rewrite String.eqb_eq. split; intros; congruence.
  - split; intros; discriminate.
Qed.

Lemma isUserOf_eq (p : string) (m : TherapyMessage) :
  isUserOf p m = true <-> role m = user /\ name m = Some p.
Proof.
  unfold isUserOf. rewrite andb_true_iff, roleEqb_eq, nameIs_eq. tauto.
Qed.

Lemma isUserOf_assistant (p : string) (m : TherapyMessage) :
  role m = assistant -> isUserOf p m = false.
Proof. unfold isUserOf. intros ->. reflexivity. Qed.

Lemma existsb_snoc {A} (f : A -> bool) (l : list A) (x : A) :
  existsb f (l ++ [x]) = existsb f l || f x.
Proof. rewrite existsb_app. simpl. now rewrite orb_false_r. Qed.

Lemma length_snoc_eqb {A} (l : list A) (x : A) : (length (l ++ [x]) =? 0) = false.
Proof. rewrite length_app. simpl. apply Nat.eqb_neq. lia. Qed.

(** The loop of the page is the state machine [threadGo]: the test on
    the earlier user messages never fails while nothing was taken. *)
Lemma filterLoop_threadGo (p : string) :
  forall rest before acc expecting,
    (acc = [] -> existsb (isUserOf p) before = false) ->
    filterLoop p before rest acc expecting
    = acc ++ threadGo p (negb (length acc =? 0)) expecting rest.
Proof.
  induction rest as [|msg rest IH]; intros before acc expecting Hinv; simpl.
  - now rewrite app_nil_r.
  - fold (isUserOf p msg). fold (isUserOf p).
    destruct (isUserOf p msg) eqn:Hu.
    + rewrite IH.
      * rewrite length_snoc_eqb. simpl. now rewrite <- app_assoc.
      * intros Hnil. destruct acc; discriminate.
    + assert (Hbefore : acc = [] ->
                existsb (isUserOf p) (before ++ [msg]) = false).
      { intros Hnil. rewrite existsb_snoc, Hu, (Hinv Hnil). reflexivity. }
      destruct (roleEqb (role msg) assistant) eqn:Hr; simpl.
      * destruct expecting; simpl.
        { rewrite IH.
          - rewrite length_snoc_eqb. simpl. now rewrite <- app_assoc.
          - intros Hnil. destruct acc; discriminate. }
        destruct (length acc =? 0) eqn:Hlen; simpl.
        { apply Nat.eqb_eq in Hlen. apply length_zero_iff_nil in Hlen.
          rewrite (Hinv Hlen). simpl.
          rewrite IH by (intros Hnil; destruct acc; discriminate).
          rewrite length_snoc_eqb. simpl. now rewrite <- app_assoc. }
        unfold isSolutionEntry. rewrite Hr. simpl.
        destruct (nameIs msg "SOLUTION").
        { rewrite IH by (intros Hnil; destruct acc; discriminate).
          rewrite length_snoc_eqb. simpl. now rewrite <- app_assoc. }
        rewrite IH by exact Hbefore. rewrite Hlen. reflexivity.
      * unfold isSolutionEntry. rewrite Hr. simpl.
        rewrite IH by exact Hbefore. reflexivity.
Qed.

Lemma filterMessagesByPartner_threadGo (log : list TherapyMessage) (p : string) :
  filterMessagesByPartner log p = threadGo p false false log.
Proof.
  unfold filterMessagesByPartner.
  rewrite filterLoop_threadGo by reflexivity. reflexivity.
Qed.

Lemma threadGo_In (p : string) (m : TherapyMessage) :
  forall rest started expecting,
    In m (threadGo p started expecting rest) ->
    In m rest /\ (isUserOf p m = true \/ role m = assistant).
Proof.
  induction rest as [|msg rest IH]; intros started expecting; simpl.
  - intros [].
  - destruct (isUserOf p msg) eqn:Hu.
    { intros [<-|Hin]; [tauto|]. apply IH in Hin. tauto. }
    unfold isSolutionEntry.
    destruct (roleEqb (role msg) assistant) eqn:Hr; simpl.
    + apply roleEqb_eq in Hr.
      destruct expecting; simpl.
      { intros [<-|Hin]; [tauto|]. apply IH in Hin. tauto. }
      destruct started; simpl.
      * destruct (nameIs msg "SOLUTION").
        { intros [<-|Hin]; [tauto|]. apply IH in Hin. tauto. }
        intros Hin. apply IH in Hin. tauto.
      * intros [<-|Hin]; [tauto|]. apply IH in Hin. tauto.
    + intros Hin. apply IH in Hin. tauto.
Qed.

Lemma threadGo_solution (p : string) (m : TherapyMessage) :
  isSolutionEntry m = true ->
  forall rest started expecting,
    In m rest -> In m (threadGo p started expecting rest).
Proof.
  intros Hsol.
  induction rest as [|msg rest IH]; intros started expecting; simpl.
  - intros [].
  - intros [->|Hin].
    + unfold isSolutionEntry in Hsol. apply andb_true_iff in Hsol.
      destruct Hsol as [Hr Hn].
      rewrite isUserOf_assistant by (now apply roleEqb_eq).
      unfold isSolutionEntry. rewrite Hr, Hn. simpl.
      destruct expecting; simpl; [now left|].
      destruct started; simpl; now left.
    + destruct (isUserOf p msg); [right; now apply IH|].
      destruct (roleEqb (role msg) assistant && expecting);
        [right; now apply IH|].
      destruct (roleEqb (role msg) assistant && negb started);
        [right; now apply IH|].
      destruct (isSolutionEntry msg); [right|]; now apply IH.
Qed.

(** C3, on the code, which departs from its own comments: the opener written
    for Alice is the first assistant entry of the log; the filter takes
    it, by its position and without reading its label, as the
    conversation starter of Bob's thread as well, and the opener written
    for Bob is dropped from Bob's thread.  The two threads share an
    entry that is not labelled SOLUTION. *)
Theorem opener_of_alice_lands_in_bobs_thread :
  filterMessagesByPartner Scenario.talkLog "Alice"
  = [Scenario.aliceOpener; Scenario.aliceSays; Scenario.aliceReply]
  /\ filterMessagesByPartner Scenario.talkLog "Bob"
     = [Scenario.aliceOpener; Scenario.bobSays; Scenario.bobReply]
  /\ name Scenario.aliceOpener = Some "Alice"
  /\ isSolutionEntry Scenario.aliceOpener = false
  /\ name Scenario.bobOpener = Some "Bob"
  /\ In Scenario.bobOpener Scenario.talkLog
  /\ ~ In Scenario.bobOpener (filterMessagesByPartner Scenario.talkLog "Bob").
Proof.
  repeat split; try reflexivity.
  - simpl. tauto.
  - vm_compute. intros [H|[H|[H|[]]]]; discriminate.
Qed.

(** What the threads of two partners do keep apart: they share no user
    entry, every entry they share is an assistant entry, and every
    assistant entry of the log labelled SOLUTION is in both threads. *)
Lemma threads_share_assistant_entries_only
  (log : list TherapyMessage) (a b : string) (Hab : a <> b) :
  (forall m, In m (filterMessagesByPartner log a) ->
             In m (filterMessagesByPartner log b) ->
             role m = assistant)
  /\ (forall m, In m log -> isSolutionEntry m = true ->
                In m (filterMessagesByPartner log a)
                /\ In m (filterMessagesByPartner log b)).
Proof.
  rewrite !filterMessagesByPartner_threadGo. split.
  - intros m Ha Hb.
    apply threadGo_In in Ha. apply threadGo_In in Hb.
    destruct Ha as [_ [Ha|Ha]]; [|exact Ha].
    destruct Hb as [_ [Hb|Hb]]; [|exact Hb].
    apply isUserOf_eq in Ha. apply isUserOf_eq in Hb.
    destruct Ha as [_ Ha]. destruct Hb as [_ Hb].
    rewrite Ha in Hb. congruence.
  - intros m Hin Hsol. split; now apply threadGo_solution.
Qed.

(** The index filter of the service looks at the previous entry only. *)
Lemma historyKeep_keepAfter (p : string) (pre rest : list TherapyMessage)
  (msg : TherapyMessage) (prev : option TherapyMessage) :
  (pre = [] /\ prev = None)
  \/ (exists pre' q, pre = pre' ++ [q] /\ prev = Some q) ->
  historyKeep p (pre ++ msg :: rest) msg (Z.of_nat (length pre))
  = keepAfter p prev msg.
Proof.
  intros Hprev. unfold historyKeep, keepAfter. fold (isUserOf p msg).
  destruct (isUserOf p msg); [reflexivity|]. simpl.
  destruct (roleEqb (role msg) assistant); [|reflexivity]. simpl.
  destruct Hprev as [[-> ->]|(pre' & q & -> & ->)].
  - reflexivity.
  - unfold Str.at_. rewrite length_app. simpl length.
    replace (Z.of_nat (length pre' + 1) - 1)%Z with (Z.of_nat (length pre'))
      by lia.
    destruct (Z.of_nat (length pre') <? 0)%Z eqn:Hneg;
      [apply Z.ltb_lt in Hneg; lia|].
    rewrite Nat2Z.id, <- app_assoc. simpl.
    rewrite nth_error_app2 by lia. rewrite Nat.sub_diag. simpl.
    fold (isUserOf p q).
    destruct (isUserOf p q); [reflexivity|].
    destruct (Z.of_nat (length pre' + 1) =? 0)%Z eqn:Hz;
      [apply Z.eqb_eq in Hz; lia|reflexivity].
Qed.

Lemma filteriFrom_histGo (p : string) :
  forall rest pre prev,
    (pre = [] /\ prev = None)
    \/ (exists pre' q, pre = pre' ++ [q] /\ prev = Some q) ->
    Str.filteriFrom (historyKeep p (pre ++ rest)) (Z.of_nat (length pre)) rest
    = histGo p prev rest.
Proof.
  induction rest as [|msg rest IH]; intros pre prev Hprev; simpl.
  - reflexivity.
  - rewrite (historyKeep_keepAfter p pre rest msg prev Hprev).
    assert (Hnext : Str.filteriFrom (historyKeep p (pre ++ msg :: rest))
                      (Z.of_nat (length pre) + 1)%Z rest
                    = histGo p (Some msg) rest).
    { replace (pre ++ msg :: rest) with ((pre ++ [msg]) ++ rest)
        by (now rewrite <- app_assoc).
      replace (Z.of_nat (length pre) + 1)%Z
        with (Z.of_nat (length (pre ++ [msg])))
        by (rewrite length_app; simpl; lia).
      apply IH. right. now exists pre, msg. }
    rewrite Hnext. reflexivity.
Qed.

Lemma historyFilter_histGo (log : list TherapyMessage) (p : string) :
  historyFilter log p = histGo p None log.
Proof.
  unfold historyFilter, Str.filteri.
  apply (filteriFrom_histGo p log [] None). now left.
Qed.

(** For a partner name that is given, [getTherapyChatHistory] is this
    filter over the stored log of the session. *)
Lemma getTherapyChatHistory_filter (db : Database) (sessionId p : string) :
  p <> "" ->
  getTherapyChatHistory db sessionId (Some p)
  = historyFilter (getAllSessionMessages db sessionId) p.
Proof.
  intros Hp. unfold getTherapyChatHistory.
  apply StrFacts.truthy_true in Hp. now rewrite Hp.
Qed.

(** What the service keeps, the page keeps. *)
Lemma histGo_Subseq_threadGo (p : string) :
  forall rest prev started expecting,
    match prev with
    | None => started = false
    | Some q => isUserOf p q = true -> expecting = true
    end ->
    Subseq (histGo p prev rest) (threadGo p started expecting rest).
Proof.
  induction rest as [|msg rest IH]; intros prev started expecting Hinv; simpl.
  - constructor.
  - destruct (isUserOf p msg) eqn:Hu.
    { unfold keepAfter. rewrite Hu. simpl.
      apply Subseq_keep. apply IH. intros _. reflexivity. }
    assert (Hnext : forall s e, Subseq (histGo p (Some msg) rest)
                                       (threadGo p s e rest)).
    { intros s e. apply IH. rewrite Hu. discriminate. }
    assert (Hkept : forall s e,
               Subseq (if keepAfter p prev msg
                       then msg :: histGo p (Some msg) rest
                       else histGo p (Some msg) rest)
                      (msg :: threadGo p s e rest)).
    { intros s e. destruct (keepAfter p prev msg).
      - apply Subseq_keep, Hnext.
      - apply Subseq_drop, Hnext. }
    destruct (roleEqb (role msg) assistant && expecting) eqn:H2;
      [apply Hkept|].
    destruct (roleEqb (role msg) assistant && negb started) eqn:H3;
      [apply Hkept|].
    destruct (isSolutionEntry msg); [apply Hkept|].
    assert (Hdrop : keepAfter p prev msg = false).
    { unfold keepAfter. rewrite Hu. simpl.
      destruct (roleEqb (role msg) assistant); [|reflexivity]. simpl in *.
      subst expecting. apply negb_false_iff in H3. subst started.
      destruct prev as [q|]; [|discriminate].
      destruct (isUserOf p q); [|reflexivity]. symmetry. now apply Hinv. }
    rewrite Hdrop. apply Hnext.
Qed.

(** On the log of one partner alone both filters keep the same entries. *)
Lemma histGo_eq_threadGo (p : string) :
  forall rest prev started expecting,
    match prev with
    | None => started = false /\ expecting = false
    | Some q => if isUserOf p q then expecting = true
                else started = true /\ expecting = false
    end ->
    ownLog p rest = true ->
    histGo p prev rest = threadGo p started expecting rest.
Proof.
  induction rest as [|msg rest IH]; intros prev started expecting Hinv Hown;
    simpl.
  - reflexivity.
  - simpl in Hown. apply andb_true_iff in Hown. destruct Hown as [Hmsg Hown].
    unfold keepAfter, isSolutionEntry.
    destruct (isUserOf p msg) eqn:Hu; simpl.
    { f_equal. apply IH; [|exact Hown]. now rewrite Hu. }
    unfold isUserOf in Hu.
    destruct (role msg) eqn:Hr; simpl in *.
    { congruence. }
    apply negb_true_iff in Hmsg. rewrite Hmsg.
    destruct prev as [q|].
    + destruct (isUserOf p q).
      * subst expecting. f_equal. apply IH; [|exact Hown].
        unfold isUserOf. rewrite Hr. simpl. now split.
      * destruct Hinv as [-> ->]. simpl. apply IH; [|exact Hown].
        unfold isUserOf. rewrite Hr. simpl. now split.
    + destruct Hinv as [-> ->]. simpl. f_equal. apply IH; [|exact Hown].
      unfold isUserOf. rewrite Hr. simpl. now split.
Qed.

(** C6, on the code, which departs from its own comments: the page's filter is
    said to replicate the filter of the service, and the page looks for
    the SOLUTION entry in the history the service gives.  Once the
    solution entry is stored, the page's filter keeps it for Bob and the
    service's filter drops it: the history of the service holds no
    SOLUTION entry, nor does the page that is set up from it. *)
Theorem service_history_drops_the_solution :
  let log := Scenario.talkLog ++ [Scenario.solutionEntry] in
  filterMessagesByPartner log "Bob"
  = [Scenario.aliceOpener; Scenario.bobSays; Scenario.bobReply;
     Scenario.solutionEntry]
  /\ historyFilter log "Bob"
     = [Scenario.aliceOpener; Scenario.bobSays; Scenario.bobReply]
  /\ getAllSessionMessages MoreScenario.solved Scenario.sid = log
  /\ getTherapyChatHistory MoreScenario.solved Scenario.sid (Some "Bob")
     = historyFilter log "Bob"
  /\ existsb (fun msg => nameIs msg "SOLUTION")
             (getTherapyChatHistory MoreScenario.solved Scenario.sid
                                    (Some "Bob"))
     = false
  /\ ChatPage.messages (Scenario.returningPage "Bob" MoreScenario.solved)
     = historyFilter log "Bob".
Proof. vm_compute. repeat split; reflexivity. Qed.

(** What the two filters have in common: what the service's filter keeps
    is a subsequence of what the page's filter keeps, and both are equal
    on a log whose user entries are all the partner's and which has no
    SOLUTION entry. *)
Lemma service_thread_within_page_thread
  (log : list TherapyMessage) (p : string) :
  Subseq (historyFilter log p) (filterMessagesByPartner log p)
  /\ (ownLog p log = true ->
      historyFilter log p = filterMessagesByPartner log p).
Proof.
  rewrite historyFilter_histGo, filterMessagesByPartner_threadGo. split.
  - apply histGo_Subseq_threadGo. reflexivity.
  - intros Hown. apply histGo_eq_threadGo; [now split|exact Hown].
Qed.

End PartitionerFacts.

(* ===================================================================== *)
(** ** The completion detector *)
(* ===================================================================== *)

Module DetectorFacts.
Import Str Vocabulary ChatRoute.

Lemma nat_of_ascii_lt (c : ascii) : nat_of_ascii c < 256.
Proof. apply nat_ascii_bounded. Qed.

Lemma nat_of_ascii_inj (c1 c2 : ascii) :
  nat_of_ascii c1 = nat_of_ascii c2 -> c1 = c2.
Proof.
  intros H. rewrite <- (ascii_nat_embedding c1), <- (ascii_nat_embedding c2).
  now rewrite H.
Qed.

Lemma isUpper_range (c : ascii) :
  isUpper c = true <-> 65 <= nat_of_ascii c <= 90.
Proof.
  unfold isUpper. rewrite andb_true_iff, !Nat.leb_le. tauto.
Qed.

Lemma lowerChar_upper (c : ascii) :
  isUpper c = true -> nat_of_ascii (lowerChar c) = nat_of_ascii c + 32.
Proof.
  intros H. unfold lowerChar. rewrite H.
  apply isUpper_range in H. apply nat_ascii_embedding. lia.
Qed.

Lemma lowerChar_other (c : ascii) : isUpper c = false -> lowerChar c = c.
Proof. intros H. unfold lowerChar. now rewrite H. Qed.

(** Two characters have the same lower case exactly when they are the
    same letter up to case. *)
Lemma lowerChar_sameLetter (c1 c2 : ascii) :
  lowerChar c1 = lowerChar c2 <-> sameLetter c1 c2.
Proof.
  unfold sameLetter. split.
  - intros H.
    destruct (isUpper c1) eqn:H1; destruct (isUpper c2) eqn:H2.
    + left. apply nat_of_ascii_inj.
      apply (f_equal nat_of_ascii) in H.
      rewrite !lowerChar_upper in H by assumption. lia.
    + right; left. split; [reflexivity|].
      apply (f_equal nat_of_ascii) in H.
      rewrite (lowerChar_upper c1) in H by assumption.
      rewrite (lowerChar_other c2) in H by assumption. lia.
    + right; right. split; [reflexivity|].
      apply (f_equal nat_of_ascii) in H.
      rewrite (lowerChar_upper c2) in H by assumption.
      rewrite (lowerChar_other c1) in H by assumption. lia.
    + left. now rewrite !lowerChar_other in H by assumption.
  - intros [->|[[H1 H]|[H2 H]]].
    + reflexivity.
    + apply nat_of_ascii_inj. rewrite lowerChar_upper by assumption.
      rewrite lowerChar_other; [lia|].
      apply isUpper_range in H1.
      destruct (isUpper c2) eqn:H2; [|reflexivity].
      apply isUpper_range in H2. lia.
    + apply nat_of_ascii_inj. rewrite (lowerChar_upper c2) by assumption.
      rewrite lowerChar_other; [lia|].
      apply isUpper_range in H2.
      destruct (isUpper c1) eqn:H1; [|reflexivity].
      apply isUpper_range in H1. lia.
Qed.

Lemma toLowerCase_eqIgnoreCase (s1 s2 : string) :
  toLowerCase s1 = toLowerCase s2 <-> eqIgnoreCase s1 s2.
Proof.
  split.
  - revert s2. induction s1 as [|c1 s1 IH]; intros [|c2 s2] H; simpl in H;
      try discriminate.
    + constructor.
    + injection H as Hc Hs. constructor.
      * now apply lowerChar_sameLetter.
      * now apply IH.
  - induction 1 as [|c1 c2 s1 s2 Hc _ IH]; simpl.
    + reflexivity.
    + apply lowerChar_sameLetter in Hc. now rewrite Hc, IH.
Qed.

Lemma toLowerCase_app (a b : string) :
  toLowerCase (a +++ b) = toLowerCase a +++ toLowerCase b.
Proof. induction a as [|c a IH]; simpl; [reflexivity|now rewrite IH]. Qed.

(** A lowered string cut in two comes from a cut of the string. *)
Lemma toLowerCase_cut (s : string) :
  forall a' b', toLowerCase s = a' +++ b' ->
    exists a b, s = a +++ b /\ toLowerCase a = a' /\ toLowerCase b = b'.
Proof.
  induction s as [|c s IH]; intros a' b' H.
  - destruct a'; [|discriminate]. simpl in H. subst b'.
    exists "", "". now repeat split.
  - destruct a' as [|c' a'].
    + simpl in H. subst b'. exists "", (String c s). now repeat split.
    + simpl in H. injection H as Hc Hs.
      destruct (IH _ _ Hs) as (a & b & -> & Ha & Hb).
      exists (String c a), b. simpl. now rewrite Hc, Ha, Hb.
Qed.

Lemma prefix_app (a s : string) :
  prefix a s = true <-> exists post, s = a +++ post.
Proof.
  revert s. induction a as [|c a IH]; intros s.
  - split; [intros _; now exists s|intros _; now destruct s].
  - destruct s as [|d s]; simpl.
    + split; [discriminate|intros [post H]; discriminate].
    + destruct (ascii_dec c d) as [->|Hcd].
      * rewrite IH. split; intros [post H]; exists post; congruence.
      * split; [discriminate|intros [post H]; congruence].
Qed.

(** [includes] finds exactly the strings that occur. *)
Lemma includes_app (s sub : string) :
  includes s sub = true <-> exists pre post, s = pre +++ sub +++ post.
Proof.
  induction s as [|c s IH].
  - change (includes "" sub) with (prefix sub "" || false).
    rewrite orb_false_r, prefix_app. split.
    + intros [post H]. now exists "", post.
    + intros (pre & post & H). destruct pre; [|discriminate].
      now exists post.
  - change (includes (String c s) sub)
      with (prefix sub (String c s) || includes s sub).
    rewrite orb_true_iff, IH, prefix_app. split.
    + intros [[post H]|(pre & post & H)].
      * now exists "", post.
      * exists (String c pre), post. simpl. now rewrite H.
    + intros (pre & post & H). destruct pre as [|d pre].
      * left. now exists post.
      * right. simpl in H. injection H as _ H. now exists pre, post.
Qed.

(** A marker is found under lower-casing exactly when the reply contains
    it in some letter-casing. *)
Lemma includes_lower_containsIgnoreCase (reply marker : string) :
  includes (toLowerCase reply) (toLowerCase marker) = true
  <-> containsIgnoreCase reply marker.
Proof.
  rewrite includes_app. unfold containsIgnoreCase. split.
  - intros (pre' & post' & H).
    destruct (toLowerCase_cut _ _ _ H) as (pre & rest & -> & Hpre & Hrest).
    destruct (toLowerCase_cut _ _ _ Hrest) as (mid & post & -> & Hmid & Hpost).
    exists pre, mid, post. split; [reflexivity|].
    now apply toLowerCase_eqIgnoreCase.
  - intros (pre & mid & post & -> & Hmid).
    apply toLowerCase_eqIgnoreCase in Hmid.
    exists (toLowerCase pre), (toLowerCase post).
    now rewrite !toLowerCase_app, Hmid.
Qed.

Lemma hasSummaryFormat_iff (reply : string) :
  hasSummaryFormat reply = true
  <-> exists marker, In marker summaryMarkers
                     /\ containsIgnoreCase reply marker.
Proof.
  unfold hasSummaryFormat. rewrite existsb_exists.
  split; intros (marker & Hin & H); exists marker; split; try exact Hin;
    now apply includes_lower_containsIgnoreCase.
Qed.

(** C7: the detector answers with a summary exactly when the reply
    contains one of the marker phrases in some letter-casing, and the
    summary it answers with is the whole reply, unchanged. *)
Theorem detectSummary_iff_marker (reply : string) :
  (detectSummary reply = Some reply
   <-> exists marker, In marker summaryMarkers
                      /\ containsIgnoreCase reply marker)
  /\ (detectSummary reply = None
      <-> ~ exists marker, In marker summaryMarkers
                           /\ containsIgnoreCase reply marker)
  /\ (forall s, detectSummary reply = Some s -> s = reply).
Proof.
  unfold detectSummary. rewrite <- hasSummaryFormat_iff.
  destruct (hasSummaryFormat reply); repeat split;
    intros; try congruence; try discriminate.
Qed.

Example detect_upper_case :
  detectSummary "OK. HERE'S WHAT I HAVE UNDERSTOOD SO FAR FROM YOUR PERSPECTIVE: x"
  = Some "OK. HERE'S WHAT I HAVE UNDERSTOOD SO FAR FROM YOUR PERSPECTIVE: x".
Proof. reflexivity. Qed.

Example detect_nothing : detectSummary "Tell me more about that." = None.
Proof. reflexivity. Qed.

End DetectorFacts.

(* ===================================================================== *)
(** ** The conversation driver *)
(* ===================================================================== *)

Module DriverFacts.
Import TherapyService Vocabulary ChatRoute.
Import PartitionerFacts.

Lemma nameIsNull_eq (m : TherapyMessage) :
  nameIsNull m = true <-> name m = None.
Proof. unfold nameIsNull. destruct (name m); split; congruence. Qed.

(** What the route's filter selects: by label only. *)
Lemma partnerOnlyMessages_In (log : list TherapyMessage) (p : string)
  (m : TherapyMessage) :
  In m (partnerOnlyMessages log p)
  <-> In m log /\ (name m = Some p \/ (role m = assistant /\ name m = None)).
Proof.
  unfold partnerOnlyMessages. rewrite filter_In.
  rewrite orb_true_iff, andb_true_iff, orb_true_iff.
  rewrite roleEqb_eq, nameIs_eq, nameIsNull_eq. tauto.
Qed.

Lemma partnerOnlyMessages_all (log : list TherapyMessage) (p : string) :
  (forall m, In m log -> name m = Some p) ->
  partnerOnlyMessages log p = log.
Proof.
  intros Hall. unfold partnerOnlyMessages.
  induction log as [|m log IH]; simpl; [reflexivity|].
  assert (Hm : nameIs m p = true) by (apply nameIs_eq, Hall; now left).
  rewrite Hm. simpl. f_equal. apply IH. intros m' Hin. apply Hall. now right.
Qed.

(** The page's filter keeps a whole log labelled with the partner in
    which no assistant entry follows another. *)
Lemma threadGo_all (p : string) :
  forall rest started expecting,
    (forall m, In m rest -> name m = Some p) ->
    noAdjacentAssistants rest = true ->
    match rest with
    | m :: _ => role m = assistant -> expecting = true \/ started = false
    | [] => True
    end ->
    threadGo p started expecting rest = rest.
Proof.
  induction rest as [|msg rest IH]; intros started expecting Hall Hadj Hhead.
  - reflexivity.
  - assert (Hname : nameIs msg p = true) by (apply nameIs_eq, Hall; now left).
    assert (Hall' : forall m, In m rest -> name m = Some p)
      by (intros m Hin; apply Hall; now right).
    assert (Hadj' : noAdjacentAssistants rest = true).
    { simpl in Hadj. destruct rest; [reflexivity|].
      now apply andb_true_iff in Hadj. }
    simpl threadGo. unfold isUserOf. rewrite Hname.
    destruct (role msg) eqn:Hr; simpl.
    + f_equal. apply IH; [exact Hall'|exact Hadj'|].
      destruct rest; [exact I|]. intros _. now left.
    + assert (Hrest : forall s e, threadGo p s e rest = rest).
      { intros s e. apply IH; [exact Hall'|exact Hadj'|].
        destruct rest as [|m2 rest]; [exact I|].
        simpl in Hadj. rewrite Hr in Hadj. simpl in Hadj.
        intros Hr2. rewrite Hr2 in Hadj. discriminate. }
      destruct (Hhead eq_refl) as [->| ->]; simpl.
      * now rewrite Hrest.
      * destruct expecting; simpl; now rewrite Hrest.
Qed.

(** A request with its three fields, for a known session, reaches the
    completion call with [chatMessagesOf]. *)
Lemma POST_calls_completion (openai : list ChatMessage -> Completion)
  (db : Database) (req : ChatRequest) (session : TherapySession) :
  sessionId req <> "" -> partnerName req <> "" -> userText req <> "" ->
  getTherapySession db (sessionId req) = Some session ->
  POST openai db req
  = match openai (chatMessagesOf db session req) with
    | Failed => ServerError
    | Replied text => Ok (aiResponseOf text) (detectSummary (aiResponseOf text))
    end.
Proof.
  intros H1 H2 H3 Hsession. unfold POST.
  apply StrFacts.truthy_true in H1, H2, H3.
  now rewrite H1, H2, H3, Hsession.
Qed.

(** C5, as stated, fails: of the interleaved log the route hands Bob's
    own opener to the completion call, the page's filter Alice's. *)
Lemma driver_history_differs_from_thread :
  conversationHistory Scenario.talkLog "Bob"
  <> map toChatMessage
         (ChatPage.filterMessagesByPartner Scenario.talkLog "Bob").
Proof. vm_compute. discriminate. Qed.

(** C5, amended: on a turn with user text the completion call receives
    the prompt, then the entries of the supplied log selected by label
    (labelled with the partner, or assistant entries without label) as
    role and content pairs, then the new user turn.  This selection is
    the page's thread when every supplied entry is labelled with the
    partner and no assistant entry directly follows another.  On a turn
    that starts the conversation no history is passed. *)
Theorem driver_history_is_label_selection
  (db : Database) (session : TherapySession) (req : ChatRequest) :
  (userText req <> START_CONVERSATION ->
   chatMessagesOf db session req
   = {| chatRole := systemRole; content := selectedPromptOf db session req |}
     :: map toChatMessage (partnerOnlyMessages (messages req) (partnerName req))
     ++ [ {| chatRole := userRole; content := userText req |} ])
  /\ (forall m,
        In m (partnerOnlyMessages (messages req) (partnerName req))
        <-> In m (messages req)
            /\ (name m = Some (partnerName req)
                \/ (role m = assistant /\ name m = None)))
  /\ ((forall m, In m (messages req) -> name m = Some (partnerName req)) ->
      noAdjacentAssistants (messages req) = true ->
      partnerOnlyMessages (messages req) (partnerName req)
      = ChatPage.filterMessagesByPartner (messages req) (partnerName req))
  /\ (userText req = START_CONVERSATION ->
      chatMessagesOf db session req
      = [ {| chatRole := systemRole;
             content := selectedPromptOf db session req |};
          {| chatRole := userRole;
             content := "Please start the conversation" |} ]).
Proof.
  split; [|split; [|split]].
  4:{ intros Hstart. unfold chatMessagesOf. now rewrite Hstart. }
  - intros Hstart. unfold chatMessagesOf, conversationHistory.
    apply String.eqb_neq in Hstart. now rewrite Hstart.
  - intros m. apply partnerOnlyMessages_In.
  - intros Hall Hadj.
    rewrite partnerOnlyMessages_all by exact Hall.
    rewrite filterMessagesByPartner_threadGo.
    symmetry. apply threadGo_all; [exact Hall|exact Hadj|].
    destruct (messages req); [exact I|]. intros _. now right.
Qed.

Lemma driver_history_is_label_selection_witness :
  let req := {| sessionId := Scenario.sid; partnerName := "Alice";
                userText := "And then we argued again.";
                messages := chat_messages Scenario.aliceOnly |} in
  userText req <> START_CONVERSATION
  /\ (forall m, In m (messages req) -> name m = Some (partnerName req))
  /\ noAdjacentAssistants (messages req) = true
  /\ partnerOnlyMessages (messages req) (partnerName req)
     = ChatPage.filterMessagesByPartner (messages req) (partnerName req).
Proof.
  intros req.
  assert (Hall : forall m, In m (messages req) -> name m = Some (partnerName req)).
  { intros m [<-|[<-|[<-|[]]]]; reflexivity. }
  split; [discriminate|]. split; [exact Hall|]. split; [reflexivity|].
  apply (driver_history_is_label_selection Scenario.aliceOnly
           Scenario.aliceAndBob req); [exact Hall|reflexivity].
Defined.






End DriverFacts.

(* ===================================================================== *)
(** ** The session completion coordinator *)
(* ===================================================================== *)

Module CoordinatorFacts.
Import TherapyService Vocabulary ChatPage.
Import PartitionerFacts.

(** Without a loaded session, as in the first render, nothing happens. *)
Lemma coordinator_without_session (sessionId : string) (st : PageState)
  (db : Database) :
  session st = None -> checkBothPartnersCompleted sessionId st db = (st, db).
Proof. intros H. unfold checkBothPartnersCompleted. now rewrite H. Qed.

(** Once the page has marked the session complete, nothing happens. *)
Lemma coordinator_when_completed (sessionId : string) (st : PageState)
  (db : Database) :
  bothPartnersCompleted st = true ->
  checkBothPartnersCompleted sessionId st db = (st, db).
Proof.
  intros H. unfold checkBothPartnersCompleted.
  destruct (session st); [|reflexivity]. now rewrite H.
Qed.

(** With fewer than two summary rows nothing happens. *)
Lemma coordinator_below_two_rows (sessionId : string) (st : PageState)
  (db : Database) :
  length (getSessionSummaries db sessionId) < 2 ->
  checkBothPartnersCompleted sessionId st db = (st, db).
Proof.
  intros H. unfold checkBothPartnersCompleted.
  destruct (session st); [|reflexivity].
  destruct (bothPartnersCompleted st); [reflexivity|].
  apply Nat.leb_gt in H. now rewrite H.
Qed.

(** One call stores at most one message, a solution entry, and touches
    no other table. *)
Lemma coordinator_stores_at_most_one (sessionId : string) (st : PageState)
  (db : Database) :
  let db' := snd (checkBothPartnersCompleted sessionId st db) in
  chat_sessions db' = chat_sessions db
  /\ summaries db' = summaries db
  /\ (chat_messages db' = chat_messages db
      \/ exists solution,
           In solution (getSessionSummaries db sessionId)
           /\ chat_messages db'
              = chat_messages db ++ [solutionMessageOf sessionId solution]).
Proof.
  unfold checkBothPartnersCompleted.
  destruct (session st); [|simpl; tauto].
  destruct (bothPartnersCompleted st); [simpl; tauto|].
  destruct (2 <=? length (getSessionSummaries db sessionId));
    [|simpl; tauto].
  simpl andb. cbv iota.
  destruct (existsb _ _); [simpl; tauto|].
  destruct (find _ _) as [solution|] eqn:Hfind; [|simpl; tauto].
  apply find_some in Hfind. destruct Hfind as [Hin _].
  match goal with |- context [if ?b then _ else _] => destruct b end;
    simpl; repeat split; right; exists solution; now split.
Qed.

(** On one page, with the state handed on from call to call, a second
    call changes nothing. *)
Lemma coordinator_idempotent_on_one_page (sessionId : string)
  (st : PageState) (db : Database) :
  let '(st1, db1) := checkBothPartnersCompleted sessionId st db in
  checkBothPartnersCompleted sessionId st1 db1 = (st1, db1).
Proof.
  destruct (checkBothPartnersCompleted sessionId st db) as [st1 db1] eqn:Hrun.
  unfold checkBothPartnersCompleted in Hrun.
  destruct (session st) eqn:Hs.
  2:{ injection Hrun as <- <-. now apply coordinator_without_session. }
  destruct (bothPartnersCompleted st) eqn:Hb.
  { injection Hrun as <- <-. now apply coordinator_when_completed. }
  destruct (2 <=? length (getSessionSummaries db sessionId)) eqn:Hlen.
  2:{ injection Hrun as <- <-. apply coordinator_below_two_rows.
      now apply Nat.leb_gt. }
  simpl andb in Hrun. cbv iota in Hrun.
  destruct (existsb _ _) in Hrun.
  { injection Hrun as <- <-. now apply coordinator_when_completed. }
  destruct (find _ _) in Hrun.
  - match type of Hrun with context [if ?b then _ else _] => destruct b end;
      injection Hrun as <- <-; now apply coordinator_when_completed.
  - injection Hrun as <- <-. now apply coordinator_when_completed.
Qed.

Lemma initializeSession_keeps_database (sessionId : string)
  (storedPartner : option string) (isNewUser : bool) (db : Database)
  (st : PageState) (db' : Database) :
  initializeSession sessionId storedPartner isNewUser initialState db
  = Some (st, db') ->
  db' = db.
Proof.
  unfold initializeSession.
  destruct (getTherapySession db sessionId); [|discriminate].
  rewrite coordinator_without_session by reflexivity.
  destruct storedPartner as [stored|].
  - destruct (Str.truthy stored && _).
    + intros [= _ <-]. reflexivity.
    + destruct isNewUser; [intros [= _ <-]; reflexivity|].
      destruct (nth_error _ 0); [|intros [= _ <-]; reflexivity].
      destruct (_ && _); intros [= _ <-]; reflexivity.
  - destruct isNewUser; [intros [= _ <-]; reflexivity|].
    destruct (nth_error _ 0); [|intros [= _ <-]; reflexivity].
    destruct (_ && _); intros [= _ <-]; reflexivity.
Qed.

(** C1, on the code: Alice is back on her page, which polls, while Bob
    finishes.  The call from Bob's page stores the solution entry.  The
    next poll of Alice's page looks for it in the page's cache, which is
    not empty and was loaded before, finds none, and stores a second
    solution entry. *)
Theorem stale_cache_appends_second_solution :
  let '(_, db1) :=
    checkBothPartnersCompleted Scenario.sid
      (Scenario.bobsPage Scenario.bothSummarized) Scenario.bothSummarized in
  let '(_, db2) :=
    checkBothPartnersCompleted Scenario.sid Scenario.alicesPage db1 in
  bothPartnersCompleted Scenario.alicesPage = false
  /\ allMessages Scenario.alicesPage = chat_messages Scenario.aliceOnly
  /\ solutionEntries Scenario.bothSummarized Scenario.sid = []
  /\ solutionEntries db1 Scenario.sid = [Scenario.solutionEntry]
  /\ solutionEntries db2 Scenario.sid
     = [Scenario.solutionEntry; Scenario.solutionEntry].
Proof. vm_compute. repeat split. Qed.

(** C4, on the code: two summary rows, both Bob's, and none of Alice:
    the coordinator counts the rows and stores the solution entry. *)
Theorem two_rows_of_one_partner_finalize :
  (forall s, In s (getSessionSummaries Scenario.bobTwice Scenario.sid) ->
             partner_name s = "Bob")
  /\ solutionEntries Scenario.bobTwice Scenario.sid = []
  /\ solutionEntries
       (snd (checkBothPartnersCompleted Scenario.sid
               (Scenario.bobsPage Scenario.bobTwice) Scenario.bobTwice))
       Scenario.sid
     = [Scenario.solutionEntry].
Proof.
  split; [|split].
  - intros s [<-|[<-|[]]]; reflexivity.
  - reflexivity.
  - vm_compute. reflexivity.
Qed.

Lemma two_members_length {A} (l : list A) (a b : A) :
  In a l -> In b l -> a <> b -> 2 <= length l.
Proof.
  destruct l as [|x [|y l]]; simpl.
  - intros [].
  - intros [<-|[]] [<-|[]] H. now elim H.
  - intros _ _ _. lia.
Qed.

Lemma existsb_false_incl {A} (f : A -> bool) (l l' : list A) :
  incl l l' -> filter f l' = [] -> existsb f l = false.
Proof.
  intros Hincl Hnone.
  destruct (existsb f l) eqn:He; [|reflexivity].
  apply existsb_exists in He. destruct He as (x & Hin & Hf).
  assert (Hx : In x (filter f l')) by (apply filter_In; auto).
  rewrite Hnone in Hx. destruct Hx.
Qed.

(** C2, as stated, fails: the text of the stored entry is not Bob's
    summary text, it starts with the heading. *)
Lemma solution_text_has_heading :
  let db1 := snd (checkBothPartnersCompleted Scenario.sid
                    (Scenario.bobsPage Scenario.bothSummarized)
                    Scenario.bothSummarized) in
  exists entry,
    chat_messages db1 = chat_messages Scenario.bothSummarized ++ [entry]
    /\ name entry = Some "SOLUTION"
    /\ message entry <> summary_text Scenario.bobSummary.
Proof.
  exists Scenario.solutionEntry. split; [|split].
  - vm_compute. reflexivity.
  - reflexivity.
  - vm_compute. discriminate.
Qed.

(** C2, amended: when both listed partners have a summary, no solution
    entry is stored and the page's cache comes from the stored log, the
    coordinator stores exactly one message: an assistant entry labelled
    SOLUTION whose text is the heading followed by the summary text of
    the partner listed second. *)
Theorem coordinator_appends_headed_summary
  (sessionId : string) (st : PageState) (db : Database)
  (sess : TherapySession) (p1 p2 : string) (s1 solution : PartnerSummary)
  (Hsession : session st = Some sess)
  (Hopen : bothPartnersCompleted st = false)
  (Hp1 : nth_error (partnerNamesOf sess) 0 = Some p1)
  (Hp2 : nth_error (partnerNamesOf sess) 1 = Some p2)
  (Hdistinct : p1 <> p2)
  (Hs1 : In s1 (getSessionSummaries db sessionId) /\ partner_name s1 = p1)
  (Hs2 : find (fun s => String.eqb (partner_name s) p2)
              (getSessionSummaries db sessionId) = Some solution)
  (Hnone : solutionEntries db sessionId = [])
  (Hcache : incl (allMessages st) (getAllSessionMessages db sessionId)) :
  snd (checkBothPartnersCompleted sessionId st db)
  = saveTherapyMessage db
      {| session_id := sessionId;
         message := solutionHeading +++ summary_text solution;
         role := assistant;
         name := Some "SOLUTION" |}.
Proof.
  assert (Hlen : (2 <=? length (getSessionSummaries db sessionId)) = true).
  { apply Nat.leb_le. destruct Hs1 as [Hin1 Hn1].
    apply (two_members_length _ s1 solution Hin1).
    - apply find_some in Hs2. tauto.
    - apply find_some in Hs2. destruct Hs2 as [_ Hn2].
      apply String.eqb_eq in Hn2. congruence. }
  assert (Hcheck :
            existsb (fun msg => nameIs msg "SOLUTION")
                    (if 0 <? length (allMessages st) then allMessages st
                     else getAllSessionMessages db sessionId) = false).
  { destruct (0 <? length (allMessages st)).
    - now apply (existsb_false_incl _ _ _ Hcache).
    - apply (existsb_false_incl _ _ (getAllSessionMessages db sessionId));
        [apply incl_refl|exact Hnone]. }
  unfold checkBothPartnersCompleted.
  rewrite Hsession, Hopen, Hlen. simpl andb. cbv iota.
  rewrite Hcheck, Hp2.
  change (find (isSummaryOf (Some p2)) (getSessionSummaries db sessionId))
    with (find (fun s => String.eqb (partner_name s) p2)
               (getSessionSummaries db sessionId)).
  rewrite Hs2.
  match goal with |- context [if ?b then _ else _] => destruct b end;
    reflexivity.
Qed.

Lemma coordinator_appends_headed_summary_witness :
  let st := Scenario.bobsPage Scenario.bothSummarized in
  incl (allMessages st)
       (getAllSessionMessages Scenario.bothSummarized Scenario.sid)
  /\ snd (checkBothPartnersCompleted Scenario.sid st Scenario.bothSummarized)
     = saveTherapyMessage Scenario.bothSummarized
         {| session_id := Scenario.sid;
            message := solutionHeading
                       +++ summary_text Scenario.bobSummary;
            role := assistant;
            name := Some "SOLUTION" |}.
Proof.
  intros st.
  assert (Hcache : incl (allMessages st)
                     (getAllSessionMessages Scenario.bothSummarized
                                            Scenario.sid)).
  { intros m Hin. vm_compute in Hin. vm_compute. tauto. }
  split; [exact Hcache|].
  apply (coordinator_appends_headed_summary Scenario.sid st
           Scenario.bothSummarized Scenario.aliceAndBob "Alice" "Bob"
           Scenario.aliceSummary Scenario.bobSummary);
    try reflexivity; try discriminate; try exact Hcache.
  split; [now left|reflexivity].
Defined.

End CoordinatorFacts.

(* ===================================================================== *)
(** ** A turn whose completion call fails *)
(* ===================================================================== *)

Module TurnFacts.
Import TherapyService Vocabulary ChatPage.






End TurnFacts.

(* ===================================================================== *)
(** ** Creation of a session *)
(* ===================================================================== *)

Module SessionFacts.
Import TherapyService Vocabulary.


(** The route alone accepts any non-empty string. *)
Example route_accepts_empty_names :
  snd (CreateSessionRoute.POST emptyDatabase Scenario.sid (Some " & "))
  = CreateSessionRoute.Created Scenario.sid (Some " & ").
Proof. reflexivity. Qed.




End SessionFacts.

(* ===================================================================== *)
(** ** More on the two thread filters *)
(* ===================================================================== *)

Module ThreadFacts.
Import TherapyService Vocabulary Notions ChatPage.
Import PartitionerFacts.

Lemma Subseq_refl {A} (l : list A) : Subseq l l.
Proof. induction l; constructor; assumption. Qed.

Lemma threadGo_Subseq (p : string) :
  forall rest started expecting,
    Subseq (threadGo p started expecting rest) rest.
Proof.
  induction rest as [|msg rest IH]; intros started expecting; simpl.
  - constructor.
  - repeat match goal with
           | |- context [if ?b then _ else _] => destruct b
           end; constructor; apply IH.
Qed.

Lemma histGo_Subseq (p : string) :
  forall rest prev, Subseq (histGo p prev rest) rest.
Proof.
  induction rest as [|msg rest IH]; intros prev; simpl.
  - constructor.
  - destruct (keepAfter p prev msg); constructor; apply IH.
Qed.

(** X1: both filters keep the order of the log and invent nothing: the
    thread is the log with entries left out. *)
Theorem threads_are_subsequences (log : list TherapyMessage) (p : string) :
  Subseq (filterMessagesByPartner log p) log
  /\ Subseq (historyFilter log p) log.
Proof.
  rewrite filterMessagesByPartner_threadGo, historyFilter_histGo.
  split; [apply threadGo_Subseq|apply histGo_Subseq].
Qed.

Lemma isUserOf_isUser (p : string) (m : TherapyMessage) :
  isUserOf p m = true -> isUser m = true.
Proof. unfold isUserOf, isUser. now intros [H _]%andb_true_iff. Qed.

Lemma assistant_not_user (m : TherapyMessage) :
  roleEqb (role m) assistant = true -> isUser m = false.
Proof. unfold isUser. destruct (role m); simpl; congruence. Qed.

Lemma threadGo_users (p : string) :
  forall rest started expecting,
    filter isUser (threadGo p started expecting rest)
    = filter (isUserOf p) rest.
Proof.
  induction rest as [|msg rest IH]; intros started expecting; simpl.
  - reflexivity.
  - destruct (isUserOf p msg) eqn:Hu.
    { simpl. rewrite (isUserOf_isUser p msg Hu). now rewrite IH. }
    unfold isSolutionEntry.
    destruct (roleEqb (role msg) assistant) eqn:Hr; simpl.
    + pose proof (assistant_not_user msg Hr) as Hn.
      destruct expecting; simpl; [now rewrite Hn, IH|].
      destruct started; simpl; [|now rewrite Hn, IH].
      destruct (nameIs msg "SOLUTION"); simpl; [now rewrite Hn, IH|apply IH].
    + apply IH.
Qed.

Lemma histGo_users (p : string) :
  forall rest prev,
    filter isUser (histGo p prev rest) = filter (isUserOf p) rest.
Proof.
  induction rest as [|msg rest IH]; intros prev; simpl.
  - reflexivity.
  - unfold keepAfter. destruct (isUserOf p msg) eqn:Hu; simpl.
    { rewrite (isUserOf_isUser p msg Hu). now rewrite IH. }
    destruct (roleEqb (role msg) assistant) eqn:Hr; simpl; [|apply IH].
    pose proof (assistant_not_user msg Hr) as Hn.
    destruct prev as [q|]; [destruct (isUserOf p q)|]; simpl;
      rewrite ?Hn; apply IH.
Qed.

(** X2: the user entries of a partner's thread are exactly the user
    entries of the log labelled with the partner, in the order of the
    log: none is lost and none of another partner is taken. *)
Theorem thread_user_entries (log : list TherapyMessage) (p : string) :
  filter isUser (filterMessagesByPartner log p) = filter (isUserOf p) log
  /\ filter isUser (historyFilter log p) = filter (isUserOf p) log.
Proof.
  rewrite filterMessagesByPartner_threadGo, historyFilter_histGo.
  split; [apply threadGo_users|apply histGo_users].
Qed.

Lemma threadGo_again (p : string) :
  forall rest started expecting,
    threadGo p started expecting (threadGo p started expecting rest)
    = threadGo p started expecting rest.
Proof.
  induction rest as [|msg rest IH]; intros started expecting.
  - reflexivity.
  - simpl threadGo at 2 3.
    destruct (isUserOf p msg) eqn:Hu.
    { simpl. rewrite Hu. now rewrite IH. }
    destruct (roleEqb (role msg) assistant && expecting) eqn:H2.
    { simpl. rewrite Hu, H2. now rewrite IH. }
    destruct (roleEqb (role msg) assistant && negb started) eqn:H3.
    { simpl. rewrite Hu, H2, H3. now rewrite IH. }
    destruct (isSolutionEntry msg) eqn:H4.
    { simpl. rewrite Hu, H2, H3, H4.
      apply andb_false_iff in H3. unfold isSolutionEntry in H4.
      apply andb_true_iff in H4. destruct H4 as [Hr _].
      destruct H3 as [H3|H3]; [congruence|].
      apply negb_false_iff in H3. subst started. now rewrite IH. }
    apply IH.
Qed.

Lemma threadGo_histGo (p : string) :
  forall rest prev started expecting,
    match prev with
    | None => started = false
    | Some q => isUserOf p q = true -> expecting = true
    end ->
    threadGo p started expecting (histGo p prev rest) = histGo p prev rest.
Proof.
  induction rest as [|msg rest IH]; intros prev started expecting Hinv.
  - reflexivity.
  - simpl histGo. unfold keepAfter.
    destruct (isUserOf p msg) eqn:Hu; simpl.
    { rewrite Hu. f_equal. apply IH. reflexivity. }
    assert (Hnext : forall s e, threadGo p s e (histGo p (Some msg) rest)
                                = histGo p (Some msg) rest).
    { intros s e. apply IH. rewrite Hu. discriminate. }
    destruct (roleEqb (role msg) assistant) eqn:Hr; simpl; [|apply Hnext].
    destruct prev as [q|].
    + destruct (isUserOf p q) eqn:Hq; [|apply Hnext].
      rewrite (Hinv eq_refl). simpl. rewrite Hu, Hr. simpl.
      now rewrite Hnext.
    + subst started. simpl. rewrite Hu, Hr. simpl.
      destruct expecting; simpl; now rewrite Hnext.
Qed.

Lemma histGo_again (p : string) :
  forall rest inner outer,
    (inner = None -> outer = None) ->
    (forall q, inner = Some q -> isUserOf p q = true -> outer = Some q) ->
    histGo p outer (histGo p inner rest) = histGo p inner rest.
Proof.
  induction rest as [|msg rest IH]; intros inner outer Hnone Hsome.
  - reflexivity.
  - simpl histGo at 2 3.
    destruct (keepAfter p inner msg) eqn:Hk.
    + assert (Hk' : keepAfter p outer msg = true).
      { unfold keepAfter in *. destruct (isUserOf p msg); [reflexivity|].
        simpl in *. destruct (roleEqb (role msg) assistant); [|discriminate].
        simpl in *. destruct inner as [q|].
        - rewrite (Hsome q eq_refl Hk). exact Hk.
        - now rewrite (Hnone eq_refl). }
      simpl. rewrite Hk'. f_equal. apply IH; [discriminate|].
      now intros q [= <-] _.
    + apply IH; [discriminate|].
      intros q [= <-] Hq. unfold keepAfter in Hk. now rewrite Hq in Hk.
Qed.

(** X3: filtering a thread again changes nothing, whichever of the two
    filters made it and whichever filters it again; the page does so
    when it filters its cache, which may hold the service's history. *)
Theorem filtering_twice_is_filtering_once
  (log : list TherapyMessage) (p : string) :
  filterMessagesByPartner (filterMessagesByPartner log p) p
  = filterMessagesByPartner log p
  /\ filterMessagesByPartner (historyFilter log p) p = historyFilter log p
  /\ historyFilter (historyFilter log p) p = historyFilter log p.
Proof.
  rewrite !filterMessagesByPartner_threadGo, !historyFilter_histGo.
  split; [|split].
  - apply threadGo_again.
  - now apply threadGo_histGo.
  - apply histGo_again; [reflexivity|discriminate].
Qed.

Lemma threadGo_app (p : string) :
  forall l1 l2 started expecting,
    exists started' expecting',
      threadGo p started expecting (l1 ++ l2)
      = threadGo p started expecting l1 ++ threadGo p started' expecting' l2.
Proof.
  induction l1 as [|msg l1 IH]; intros l2 started expecting.
  - now exists started, expecting.
  - simpl.
    repeat match goal with
           | |- context [if ?b then _ else _] => destruct b
           end;
      match goal with
      | |- context [threadGo p ?s ?e (l1 ++ l2)] =>
          destruct (IH l2 s e) as (s' & e' & ->)
      end; now exists s', e'.
Qed.

Lemma histGo_app (p : string) :
  forall l1 l2 prev,
    histGo p prev (l1 ++ l2)
    = histGo p prev l1 ++ histGo p (lastAfter prev l1) l2.
Proof.
  induction l1 as [|msg l1 IH]; intros l2 prev.
  - reflexivity.
  - change (lastAfter prev (msg :: l1)) with (lastAfter (Some msg) l1).
    simpl. rewrite IH. now destruct (keepAfter p prev msg).
Qed.

(** X4: a thread only grows at its end: when entries are added to the
    log, what either filter had selected stays, in place. *)
Theorem threads_only_grow (log more : list TherapyMessage) (p : string) :
  (exists added,
     filterMessagesByPartner (log ++ more) p
     = filterMessagesByPartner log p ++ added)
  /\ (exists added,
        historyFilter (log ++ more) p = historyFilter log p ++ added).
Proof.
  rewrite !filterMessagesByPartner_threadGo, !historyFilter_histGo. split.
  - destruct (threadGo_app p log more false false) as (s & e & ->).
    now eexists.
  - rewrite histGo_app. now eexists.
Qed.

Lemma filter_nil_cons {A} (f : A -> bool) (x : A) (l : list A) :
  filter f (x :: l) = [] -> f x = false /\ filter f l = [].
Proof. simpl. destruct (f x); [discriminate|now split]. Qed.

Lemma threadGo_silent_started (p : string) :
  forall rest, filter (isUserOf p) rest = [] ->
    threadGo p true false rest = filter isSolutionEntry rest.
Proof.
  induction rest as [|msg rest IH]; intros Hnone; simpl.
  - reflexivity.
  - apply filter_nil_cons in Hnone. destruct Hnone as [Hu Hnone].
    rewrite Hu, andb_false_r. simpl.
    destruct (isSolutionEntry msg); now rewrite IH.
Qed.

Lemma threadGo_silent (p : string) :
  forall rest, filter (isUserOf p) rest = [] ->
    threadGo p false false rest = silentThread rest.
Proof.
  induction rest as [|msg rest IH]; intros Hnone; simpl.
  - reflexivity.
  - apply filter_nil_cons in Hnone. destruct Hnone as [Hu Hnone].
    rewrite Hu, andb_false_r, andb_true_r.
    destruct (roleEqb (role msg) assistant) eqn:Hr.
    + now rewrite threadGo_silent_started.
    + unfold isSolutionEntry. rewrite Hr. simpl. now apply IH.
Qed.

Lemma histGo_silent (p : string) :
  forall rest q, filter (isUserOf p) rest = [] -> isUserOf p q = false ->
    histGo p (Some q) rest = [].
Proof.
  induction rest as [|msg rest IH]; intros q Hnone Hq; simpl.
  - reflexivity.
  - apply filter_nil_cons in Hnone. destruct Hnone as [Hu Hnone].
    unfold keepAfter. rewrite Hu, Hq, andb_false_r. simpl. now apply IH.
Qed.

(** X5: the thread of a partner who has no user entry in the log.  The
    page's filter gives the first assistant entry of the log, whatever
    its label, and the solution entries after it; the service's filter
    gives the first entry of the log when it is an assistant entry, and
    nothing else. *)
Theorem thread_of_silent_partner (log : list TherapyMessage) (p : string)
  (Hsilent : filter (isUserOf p) log = []) :
  filterMessagesByPartner log p = silentThread log
  /\ historyFilter log p
     = match log with
       | first :: _ => if roleEqb (role first) assistant then [first] else []
       | [] => []
       end.
Proof.
  rewrite filterMessagesByPartner_threadGo, historyFilter_histGo. split.
  - now apply threadGo_silent.
  - destruct log as [|first rest]; [reflexivity|].
    apply filter_nil_cons in Hsilent. destruct Hsilent as [Hu Hnone].
    simpl. unfold keepAfter. rewrite Hu, andb_true_r. simpl.
    rewrite (histGo_silent p rest first Hnone Hu).
    now destruct (roleEqb (role first) assistant).
Qed.

Lemma thread_of_silent_partner_witness :
  filter (isUserOf "Bob") (chat_messages Scenario.aliceOnly) = []
  /\ filterMessagesByPartner (chat_messages Scenario.aliceOnly) "Bob"
     = [Scenario.aliceOpener].
Proof.
  split; [reflexivity|].
  apply (thread_of_silent_partner (chat_messages Scenario.aliceOnly) "Bob").
  reflexivity.
Defined.

End ThreadFacts.

(* ===================================================================== *)
(** ** More on the coordinator *)
(* ===================================================================== *)

Module PollFacts.
Import TherapyService Vocabulary Notions ChatPage.
Import CoordinatorFacts.

Lemma pollTimes_settled (sessionId : string) :
  forall n st db,
    pollTimes n sessionId (checkBothPartnersCompleted sessionId st db)
    = checkBothPartnersCompleted sessionId st db.
Proof.
  induction n as [|n IH]; intros st db; [reflexivity|].
  simpl pollTimes.
  pose proof (coordinator_idempotent_on_one_page sessionId st db) as Hidem.
  destruct (checkBothPartnersCompleted sessionId st db) as [st1 db1] eqn:Hrun.
  simpl fst. simpl snd. rewrite Hidem. rewrite <- Hidem. apply IH.
Qed.

(** X6: the poll of one page: any number of calls of the coordinator in
    a row, each on the state and database the one before left, ends
    where the first call ended. *)
Theorem polling_one_page_settles_after_first_call
  (n : nat) (sessionId : string) (st : PageState) (db : Database) :
  pollTimes (S n) sessionId (st, db)
  = checkBothPartnersCompleted sessionId st db.
Proof. simpl. apply pollTimes_settled. Qed.

Lemma solutionEntries_existsb (db : Database) (sessionId : string) :
  solutionEntries db sessionId <> [] ->
  existsb (fun msg => nameIs msg "SOLUTION")
          (getAllSessionMessages db sessionId) = true.
Proof.
  unfold solutionEntries. intros Hne.
  destruct (filter _ _) as [|m l] eqn:Hf; [now elim Hne|].
  assert (Hin : In m (filter (fun m => nameIs m "SOLUTION")
                             (getAllSessionMessages db sessionId)))
    by (rewrite Hf; now left).
  apply filter_In in Hin. apply existsb_exists. now exists m.
Qed.

Lemma solutionEntries_save (db : Database) (sessionId : string)
  (msg : TherapyMessage) :
  solutionEntries (saveTherapyMessage db msg) sessionId
  = solutionEntries db sessionId
    ++ (if String.eqb (session_id msg) sessionId && nameIs msg "SOLUTION"
        then [msg] else []).
Proof.
  unfold solutionEntries, getAllSessionMessages. simpl.
  rewrite !filter_app. simpl.
  destruct (String.eqb (session_id msg) sessionId); simpl; [|reflexivity].
  now destruct (nameIs msg "SOLUTION").
Qed.

(** X7: a page whose cache is empty looks for the solution in the
    stored log: when the log has a solution entry the call stores
    nothing, and when it has none the log has at most one afterwards. *)
Theorem empty_cache_never_duplicates
  (sessionId : string) (st : PageState) (db : Database)
  (Hcache : allMessages st = []) :
  let db' := snd (checkBothPartnersCompleted sessionId st db) in
  (solutionEntries db sessionId <> [] -> db' = db)
  /\ (solutionEntries db sessionId = [] ->
      length (solutionEntries db' sessionId) <= 1).
Proof.
  split.
  - intros Hsol. apply solutionEntries_existsb in Hsol.
    unfold checkBothPartnersCompleted.
    destruct (session st); [|reflexivity].
    destruct (bothPartnersCompleted st); [reflexivity|].
    destruct (2 <=? _); [|reflexivity].
    rewrite Hcache. simpl. now rewrite Hsol.
  - intros Hnone.
    destruct (coordinator_stores_at_most_one sessionId st db)
      as (Hs & Hsum & [Hsame|(solution & _ & Hadd)]).
    + unfold solutionEntries, getAllSessionMessages in *.
      rewrite Hsame, Hnone. simpl. lia.
    + unfold solutionEntries, getAllSessionMessages in *.
      rewrite Hadd, filter_app, filter_app, Hnone. simpl.
      rewrite String.eqb_refl. simpl. lia.
Qed.

Lemma empty_cache_never_duplicates_witness :
  let st := setAllMessages [] Scenario.alicesPage in
  let db := saveTherapyMessage Scenario.bothSummarized Scenario.solutionEntry in
  allMessages st = []
  /\ solutionEntries db Scenario.sid <> []
  /\ snd (checkBothPartnersCompleted Scenario.sid st db) = db.
Proof.
  intros st db. split; [reflexivity|]. split; [discriminate|].
  apply (empty_cache_never_duplicates Scenario.sid st db);
    [reflexivity|discriminate].
Defined.

Lemma coordinator_solution_or_nothing
  (sessionId : string) (st : PageState) (db : Database) :
  let db' := snd (checkBothPartnersCompleted sessionId st db) in
  db' = db
  \/ exists sess solution,
       session st = Some sess
       /\ In solution (getSessionSummaries db sessionId)
       /\ nth_error (partnerNamesOf sess) 1 = Some (partner_name solution)
       /\ db' = saveTherapyMessage db (solutionMessageOf sessionId solution).
Proof.
  unfold checkBothPartnersCompleted.
  destruct (session st) as [sess|] eqn:Hsess; [|now left].
  destruct (bothPartnersCompleted st); [now left|].
  destruct (2 <=? length (getSessionSummaries db sessionId)); [|now left].
  simpl andb. cbv iota.
  destruct (existsb _ _); [now left|].
  destruct (find _ _) as [solution|] eqn:Hfind; [|now left].
  apply find_some in Hfind. destruct Hfind as [Hin Hname].
  right. exists sess, solution. repeat split; try assumption.
  - unfold isSummaryOf in Hname.
    destruct (nth_error (partnerNamesOf sess) 1) as [n|]; [|discriminate].
    apply String.eqb_eq in Hname. now rewrite Hname.
  - match goal with |- context [if ?b then _ else _] => destruct b end;
      reflexivity.
Qed.

(** X8: whatever the state of the page, a call of the coordinator
    stores nothing, or exactly one message: the solution message of a
    stored summary of this session whose partner is the second name of
    the session.  It writes no session and no summary. *)
Theorem coordinator_stores_only_the_solution
  (sessionId : string) (st : PageState) (db : Database) :
  let db' := snd (checkBothPartnersCompleted sessionId st db) in
  db' = db
  \/ exists sess solution,
       session st = Some sess
       /\ In solution (getSessionSummaries db sessionId)
       /\ nth_error (partnerNamesOf sess) 1 = Some (partner_name solution)
       /\ db' = saveTherapyMessage db (solutionMessageOf sessionId solution).
Proof. exact (coordinator_solution_or_nothing sessionId st db). Qed.

(** X9: two or more summary rows, no solution in what the page checks,
    and no row of the partner listed second.  The call stores nothing,
    yet it marks the page as completed, and from then on no call from
    this page stores anything, whatever the database holds. *)
Theorem completed_without_solution
  (sessionId : string) (st : PageState) (db : Database)
  (sess : TherapySession)
  (Hsession : session st = Some sess)
  (Hopen : bothPartnersCompleted st = false)
  (Hrows : 2 <= length (getSessionSummaries db sessionId))
  (Hcheck : existsb (fun msg => nameIs msg "SOLUTION")
                    (if 0 <? length (allMessages st) then allMessages st
                     else getAllSessionMessages db sessionId) = false)
  (Hmissing : forall s, In s (getSessionSummaries db sessionId) ->
                nth_error (partnerNamesOf sess) 1 <> Some (partner_name s)) :
  let '(st', db') := checkBothPartnersCompleted sessionId st db in
  db' = db
  /\ bothPartnersCompleted st' = true
  /\ forall later, checkBothPartnersCompleted sessionId st' later
                   = (st', later).
Proof.
  assert (Hfind : find (isSummaryOf (nth_error (partnerNamesOf sess) 1))
                       (getSessionSummaries db sessionId) = None).
  { destruct (find _ _) as [s|] eqn:Hf; [|reflexivity].
    apply find_some in Hf. destruct Hf as [Hin Hname]. exfalso.
    apply (Hmissing s Hin). unfold isSummaryOf in Hname.
    destruct (nth_error (partnerNamesOf sess) 1) as [n|]; [|discriminate].
    apply String.eqb_eq in Hname. now rewrite Hname. }
  unfold checkBothPartnersCompleted at 1.
  apply Nat.leb_le in Hrows.
  rewrite Hsession, Hopen, Hrows. simpl andb. cbv iota.
  rewrite Hcheck, Hfind.
  split; [reflexivity|]. split; [reflexivity|].
  intros later. now apply coordinator_when_completed.
Qed.

Lemma completed_without_solution_witness :
  let st := Scenario.returningPage "Alice" MoreScenario.aliceTwice in
  2 <= length (getSessionSummaries MoreScenario.aliceTwice Scenario.sid)
  /\ let '(st', db') :=
       checkBothPartnersCompleted Scenario.sid st MoreScenario.aliceTwice in
     db' = MoreScenario.aliceTwice
     /\ bothPartnersCompleted st' = true
     /\ checkBothPartnersCompleted Scenario.sid st' Scenario.bothSummarized
        = (st', Scenario.bothSummarized).
Proof.
  intros st. split; [simpl; lia|].
  pose proof (completed_without_solution Scenario.sid st
                MoreScenario.aliceTwice Scenario.aliceAndBob) as H.
  destruct (checkBothPartnersCompleted Scenario.sid st MoreScenario.aliceTwice)
    as [st' db'].
  destruct H as (Hdb & Hflag & Hlater);
    [reflexivity|reflexivity|simpl; lia|reflexivity| |].
  - intros s [<-|[<-|[]]]; discriminate.
  - split; [exact Hdb|]. split; [exact Hflag|]. apply Hlater.
Defined.

End PollFacts.

(* ===================================================================== *)
(** ** More on a submitted turn *)
(* ===================================================================== *)

Module SubmitFacts.
Import TherapyService Vocabulary Notions ChatPage.

(** X10: a submission is ignored exactly when no partner is selected,
    the input is blank, that is, made of white space only, or a turn is
    under way; an ignored submission changes neither the page nor the
    database. *)
Theorem submission_ignored_iff
  (openai : list ChatRoute.ChatMessage -> ChatRoute.Completion)
  (sessionId : string) (st : PageState) (db : Database) :
  let '(st', db', outcome) := handleSubmit openai sessionId st db in
  (outcome = Ignored
   <-> selectedPartner st = None \/ selectedPartner st = Some ""
       \/ Blank (input st) \/ isLoading st = true)
  /\ (outcome = Ignored -> st' = st /\ db' = db).
Proof.
  unfold handleSubmit.
  destruct (selectedPartner st) as [partner|] eqn:Hp.
  2:{ split; [split; [now left|reflexivity]|now split]. }
  destruct (TrimFacts.truthy_trim (input st)) as [[Hblank Ht]|[Hblank Ht]];
    rewrite Ht; simpl.
  { split; [split; [tauto|reflexivity]|now split]. }
  destruct (isLoading st) eqn:Hload; simpl.
  { split; [split; [tauto|reflexivity]|now split]. }
  destruct (Str.truthy partner) eqn:Hname; simpl.
  - apply StrFacts.truthy_true in Hname.
    assert (Hno : ~ (Some partner = None \/ Some partner = Some ""
                     \/ Blank (input st) \/ false = true)).
    { intros [H|[H|[H|H]]]; congruence. }
    destruct (ChatRoute.POST _ _ _) as [| | |reply [text|]];
      try destruct (Str.truthy text);
      (split; [split; [discriminate|intros H; now elim Hno]|discriminate]).
  - assert (Hempty : partner = "").
    { destruct (String.eqb partner "") eqn:He.
      - now apply String.eqb_eq.
      - unfold Str.truthy in Hname. rewrite He in Hname. discriminate. }
    subst partner. split; [split; [tauto|reflexivity]|now split].
Qed.

Lemma submission_ignored_iff_witness :
  let st := setInput (" " +++ Str.utf8 [194; 160] +++ Str.utf8 [227; 128; 128])
                     (Scenario.bobsPage Scenario.aliceOnly) in
  Blank (input st)
  /\ handleSubmit Scenario.openaiDown Scenario.sid st Scenario.aliceOnly
     = (st, Scenario.aliceOnly, Ignored).
Proof.
  intros st.
  assert (Hblank : Blank (input st)).
  { apply TrimFacts.trim_empty. reflexivity. }
  split; [exact Hblank|].
  pose proof (submission_ignored_iff Scenario.openaiDown Scenario.sid st
                Scenario.aliceOnly) as H.
  destruct (handleSubmit Scenario.openaiDown Scenario.sid st
              Scenario.aliceOnly) as [[st' db'] outcome].
  destruct H as [Hiff Hsame].
  assert (Hout : outcome = Ignored).
  { apply Hiff. right. right. left. exact Hblank. }
  destruct (Hsame Hout) as [-> ->]. now rewrite Hout.
Defined.

Lemma aiResponseOf_truthy (text : option string) :
  Str.truthy (ChatRoute.aiResponseOf text) = true.
Proof.
  unfold ChatRoute.aiResponseOf. destruct text as [t|]; [|reflexivity].
  destruct (Str.truthy t) eqn:Ht; [exact Ht|reflexivity].
Qed.

(** X11: a turn that the completion call answers.  The user's message
    and then the reply are stored, both labelled with the partner; a
    summary row with the whole reply is stored exactly when the reply
    has the summary format, and only then is the coordinator scheduled
    and the partner marked as completed. *)
Theorem answered_turn_stores_message_reply_and_summary
  (openai : list ChatRoute.ChatMessage -> ChatRoute.Completion)
  (sessionId : string) (st : PageState) (db : Database) (partner : string)
  (sess : TherapySession) (text : option string)
  (Hpartner : selectedPartner st = Some partner)
  (Hname : partner <> "")
  (Hinput : ~ Blank (input st))
  (Hidle : isLoading st = false)
  (Hid : sessionId <> "")
  (Hsession : getTherapySession db sessionId = Some sess) :
  let userMessage := {| session_id := sessionId; message := input st;
                        role := user; name := Some partner |} in
  let request := {| ChatRoute.sessionId := sessionId;
                    ChatRoute.partnerName := partner;
                    ChatRoute.userText := input st;
                    ChatRoute.messages := messages st ++ [userMessage] |} in
  let reply := ChatRoute.aiResponseOf text in
  let replyMessage := {| session_id := sessionId; message := reply;
                         role := assistant; name := Some partner |} in
  let detected := ChatRoute.hasSummaryFormat reply in
  openai (ChatRoute.chatMessagesOf (saveTherapyMessage db userMessage)
                                   sess request)
  = ChatRoute.Replied text ->
  let '(st', db', outcome) := handleSubmit openai sessionId st db in
  outcome = Replied detected
  /\ chat_messages db' = chat_messages db ++ [userMessage; replyMessage]
  /\ summaries db'
     = summaries db
       ++ (if detected
           then [ {| summary_session_id := sessionId;
                     partner_name := partner; summary_text := reply |} ]
           else [])
  /\ chat_sessions db' = chat_sessions db
  /\ messages st' = messages st ++ [userMessage; replyMessage]
  /\ currentPartnerCompleted st' = currentPartnerCompleted st || detected
  /\ isLoading st' = false /\ input st' = "".
Proof.
  intros userMessage request reply replyMessage detected Hreply.
  assert (Htext : input st <> "").
  { intros H. apply Hinput. rewrite H. constructor. }
  assert (Hpost : ChatRoute.POST openai (saveTherapyMessage db userMessage)
                                 request
                  = ChatRoute.Ok reply (ChatRoute.detectSummary reply)).
  { rewrite (DriverFacts.POST_calls_completion openai _ request sess);
      try assumption.
    now rewrite Hreply. }
  apply TrimFacts.truthy_trim_true in Hinput.
  unfold handleSubmit. rewrite Hpartner, Hidle, Hinput.
  apply StrFacts.truthy_true in Hname. rewrite Hname.
  simpl negb. simpl orb. cbv iota.
  fold userMessage. fold request. rewrite Hpost.
  unfold ChatRoute.detectSummary. fold detected.
  destruct detected.
  - unfold reply. rewrite aiResponseOf_truthy. fold reply. simpl.
    rewrite <- !app_assoc, orb_true_r. repeat split; reflexivity.
  - simpl. rewrite <- !app_assoc, app_nil_r, orb_false_r.
    repeat split; reflexivity.
Qed.

Lemma answered_turn_stores_message_reply_and_summary_witness :
  let st := MoreScenario.aliceTyping in
  let db := MoreScenario.aliceTalking in
  let reply := message Scenario.aliceReply in
  let '(_, db', outcome) :=
    handleSubmit (MoreScenario.openaiSays reply) Scenario.sid st db in
  ~ Blank (input st)
  /\ currentPartnerCompleted st = false
  /\ ChatRoute.hasSummaryFormat reply = true
  /\ outcome = Replied true
  /\ summaries db' = [Scenario.aliceSummary].
Proof.
  intros st db reply.
  assert (Hinput : ~ Blank (input st)).
  { apply TrimFacts.not_Blank_by_trim. discriminate. }
  pose proof (answered_turn_stores_message_reply_and_summary
                (MoreScenario.openaiSays reply) Scenario.sid st
                db "Alice" Scenario.aliceAndBob (Some reply))
    as H.
  destruct (handleSubmit (MoreScenario.openaiSays reply) Scenario.sid st db)
    as [[st' db'] outcome].
  destruct H as (Hout & _ & Hsum & _);
    [reflexivity|discriminate|exact Hinput|reflexivity|discriminate
    |reflexivity|reflexivity|].
  split; [exact Hinput|]. split; [reflexivity|]. split; [reflexivity|].
  split; [exact Hout|exact Hsum].
Defined.

(** X12: the new user text reaches the completion call twice.  The page
    sends its messages with the new user message at the end, the route
    keeps that message because it is labelled with the partner, and then
    adds the user text once more: the input of the completion call ends
    with the same user turn two times. *)
Theorem completion_input_repeats_user_text
  (sessionId : string) (st : PageState) (db : Database) (partner : string)
  (sess : TherapySession)
  (Htext : input st <> ChatRoute.START_CONVERSATION) :
  let userMessage := {| session_id := sessionId; message := input st;
                        role := user; name := Some partner |} in
  let request := {| ChatRoute.sessionId := sessionId;
                    ChatRoute.partnerName := partner;
                    ChatRoute.userText := input st;
                    ChatRoute.messages := messages st ++ [userMessage] |} in
  let userTurn := {| ChatRoute.chatRole := ChatRoute.userRole;
                     ChatRoute.content := input st |} in
  exists front,
    ChatRoute.chatMessagesOf db sess request
    = front ++ [userTurn; userTurn].
Proof.
  intros userMessage request userTurn.
  unfold ChatRoute.chatMessagesOf.
  apply String.eqb_neq in Htext. simpl ChatRoute.userText. rewrite Htext.
  unfold ChatRoute.conversationHistory, ChatRoute.partnerOnlyMessages.
  simpl ChatRoute.messages. simpl ChatRoute.partnerName.
  rewrite filter_app. simpl filter.
  assert (Hkeep : nameIs userMessage partner = true).
  { unfold nameIs. simpl. apply String.eqb_refl. }
  rewrite Hkeep. simpl orb. cbv iota.
  rewrite map_app. simpl map.
  eexists (_ :: _). simpl. f_equal. rewrite <- app_assoc. reflexivity.
Qed.

Lemma completion_input_repeats_user_text_witness :
  let st := Scenario.bobTyping Scenario.aliceOnly in
  input st <> ChatRoute.START_CONVERSATION
  /\ exists front,
       ChatRoute.chatMessagesOf Scenario.aliceOnly Scenario.aliceAndBob
         {| ChatRoute.sessionId := Scenario.sid;
            ChatRoute.partnerName := "Bob";
            ChatRoute.userText := input st;
            ChatRoute.messages :=
              messages st ++ [ {| session_id := Scenario.sid;
                                  message := input st;
                                  role := user; name := Some "Bob" |} ] |}
       = front ++ [ {| ChatRoute.chatRole := ChatRoute.userRole;
                       ChatRoute.content := input st |};
                    {| ChatRoute.chatRole := ChatRoute.userRole;
                       ChatRoute.content := input st |} ].
Proof.
  intros st. split; [discriminate|].
  apply (completion_input_repeats_user_text Scenario.sid st
           Scenario.aliceOnly "Bob" Scenario.aliceAndBob).
  discriminate.
Defined.

End SubmitFacts.

(* ===================================================================== *)
(** ** The openers and the separation of sessions *)
(* ===================================================================== *)

Module OpenerFacts.
Import TherapyService Vocabulary Notions ChatPage ChatPageEvents.
Import PartitionerFacts.

Lemma POST_reply_truthy
  (openai : list ChatRoute.ChatMessage -> ChatRoute.Completion)
  (db : Database) (req : ChatRoute.ChatRequest) (reply : string)
  (summary : option string) :
  ChatRoute.POST openai db req = ChatRoute.Ok reply summary ->
  reply <> "".
Proof.
  unfold ChatRoute.POST.
  destruct (_ || _); [discriminate|].
  destruct (getTherapySession _ _); [|discriminate].
  destruct (openai _) as [|text]; [discriminate|].
  intros [= <- _]. apply StrFacts.truthy_true.
  apply SubmitFacts.aiResponseOf_truthy.
Qed.

Lemma fetchOpener_stores
  (openai : list ChatRoute.ChatMessage -> ChatRoute.Completion)
  (sessionId partnerName : string) (st : PageState) (db : Database) :
  let '(st', db') := fetchOpener openai sessionId partnerName st db in
  (st' = st /\ db' = db)
  \/ exists reply,
       reply <> ""
       /\ let opener := {| session_id := sessionId; message := reply;
                           role := assistant; name := Some partnerName |} in
          st' = setMessages [opener] st
          /\ db' = saveTherapyMessage db opener.
Proof.
  unfold fetchOpener.
  destruct (ChatRoute.POST openai db (openerRequest sessionId partnerName))
    as [| | |reply summary] eqn:Hpost; try (left; now split).
  right. exists reply. split; [|now split].
  now apply POST_reply_truthy in Hpost.
Qed.

(** X13: what picking a name writes.  The handler stores at most one
    message, the assistant's opening message, not empty and labelled
    with the picked name, at the end of the log; it stores no summary,
    also when the opening text has the summary format, no user message
    and no session.  When the route does not answer, nothing is
    stored. *)
Theorem picking_a_name_stores_only_the_opener
  (openai : list ChatRoute.ChatMessage -> ChatRoute.Completion)
  (sessionId partnerName : string) (st : PageState) (db : Database) :
  let db' := snd (handlePartnerSelect openai sessionId partnerName st db) in
  summaries db' = summaries db
  /\ chat_sessions db' = chat_sessions db
  /\ (chat_messages db' = chat_messages db
      \/ exists reply,
           reply <> ""
           /\ chat_messages db'
              = chat_messages db
                ++ [ {| session_id := sessionId; message := reply;
                        role := assistant; name := Some partnerName |} ])
  /\ (forall reply summary,
        ChatRoute.POST openai db (openerRequest sessionId partnerName)
        = ChatRoute.Ok reply summary ->
        chat_messages db'
        = chat_messages db
          ++ [ {| session_id := sessionId; message := reply;
                  role := assistant; name := Some partnerName |} ])
  /\ ((forall reply summary,
         ChatRoute.POST openai db (openerRequest sessionId partnerName)
         <> ChatRoute.Ok reply summary) ->
      db' = db).
Proof.
  intros db'. subst db'. unfold handlePartnerSelect, fetchOpener.
  destruct (ChatRoute.POST openai db (openerRequest sessionId partnerName))
    as [| | |reply summary] eqn:Hpost; simpl snd.
  4:{ apply POST_reply_truthy in Hpost.
      split; [reflexivity|]. split; [reflexivity|]. split.
      - right. now exists reply.
      - split.
        + now intros reply' summary' [= <- _].
        + intros H. now elim (H reply summary). }
  all: split; [reflexivity|]; split; [reflexivity|]; split; [now left|];
    split; [discriminate|reflexivity].
Qed.

Lemma getAllSessionMessages_save (db : Database) (msg : TherapyMessage)
  (sessionId : string) :
  getAllSessionMessages (saveTherapyMessage db msg) sessionId
  = getAllSessionMessages db sessionId
    ++ (if String.eqb (session_id msg) sessionId then [msg] else []).
Proof.
  unfold getAllSessionMessages. simpl. rewrite filter_app. simpl.
  now destruct (String.eqb (session_id msg) sessionId).
Qed.

Lemma lastAfter_app (l : list TherapyMessage) (m : TherapyMessage)
  (prev : option TherapyMessage) :
  lastAfter prev (l ++ [m]) = Some m.
Proof. unfold lastAfter. now rewrite fold_left_app. Qed.

(** X14: the opening message of a partner who joins a log that does not
    end with a user message of this partner is stored but never comes
    back: the history the service gives for the partner is the same
    before and after the opener. *)
Theorem later_opener_is_not_in_the_history
  (openai : list ChatRoute.ChatMessage -> ChatRoute.Completion)
  (sessionId partnerName : string) (st : PageState) (db : Database)
  (lastEntry : TherapyMessage)
  (Hname : partnerName <> "")
  (Hlast : lastOf (getAllSessionMessages db sessionId) = Some lastEntry)
  (Hother : isUserOf partnerName lastEntry = false) :
  let db' := snd (handlePartnerSelect openai sessionId partnerName st db) in
  getTherapyChatHistory db' sessionId (Some partnerName)
  = getTherapyChatHistory db sessionId (Some partnerName).
Proof.
  intros db'. subst db'.
  rewrite !getTherapyChatHistory_filter by exact Hname.
  unfold handlePartnerSelect.
  pose proof (fetchOpener_stores openai sessionId partnerName
                (setHasStartedChatting true
                   (setMessages [] (setSelectedPartner (Some partnerName) st)))
                db) as H.
  destruct (fetchOpener _ _ _ _ _) as [st' db'].
  destruct H as [[-> ->]|(reply & Hreply & -> & ->)]; [reflexivity|].
  simpl snd. rewrite getAllSessionMessages_save. simpl session_id.
  rewrite String.eqb_refl, !historyFilter_histGo, ThreadFacts.histGo_app.
  fold (lastOf (getAllSessionMessages db sessionId)). rewrite Hlast.
  simpl. unfold keepAfter, isUserOf at 1. simpl. rewrite Hother.
  now rewrite app_nil_r.
Qed.

Lemma later_opener_is_not_in_the_history_witness :
  let db := Scenario.aliceOnly in
  let '(st', db') :=
    handlePartnerSelect (MoreScenario.openaiSays "Hey Bob.") Scenario.sid
      "Bob" initialState db in
  lastOf (getAllSessionMessages db Scenario.sid) = Some Scenario.aliceReply
  /\ chat_messages db'
     = chat_messages db
       ++ [ {| session_id := Scenario.sid; message := "Hey Bob.";
               role := assistant; name := Some "Bob" |} ]
  /\ getTherapyChatHistory db' Scenario.sid (Some "Bob")
     = getTherapyChatHistory db Scenario.sid (Some "Bob").
Proof.
  intros db.
  pose proof (later_opener_is_not_in_the_history
                (MoreScenario.openaiSays "Hey Bob.") Scenario.sid "Bob"
                initialState db Scenario.aliceReply) as H.
  destruct (handlePartnerSelect _ _ _ _ _) as [st' db'] eqn:Hrun.
  split; [reflexivity|]. split.
  - vm_compute in Hrun. now injection Hrun as _ <-.
  - apply H; [discriminate|reflexivity|reflexivity].
Defined.

Lemma getSessionSummaries_save (db : Database) (s : PartnerSummary)
  (sessionId : string) :
  getSessionSummaries (savePartnerSummary db s) sessionId
  = getSessionSummaries db sessionId
    ++ (if String.eqb (summary_session_id s) sessionId then [s] else []).
Proof.
  unfold getSessionSummaries. simpl. rewrite filter_app. simpl.
  now destruct (String.eqb (summary_session_id s) sessionId).
Qed.

(** A database that differs from [db] by rows of one session only. *)
Lemma elsewhere_untouched (sessionId other : string) (db db' : Database)
  (msgs : list TherapyMessage) (sums : list PartnerSummary) :
  other <> sessionId ->
  chat_messages db' = chat_messages db ++ msgs ->
  summaries db' = summaries db ++ sums ->
  (forall m, In m msgs -> session_id m = sessionId) ->
  (forall s, In s sums -> summary_session_id s = sessionId) ->
  getAllSessionMessages db' other = getAllSessionMessages db other
  /\ getSessionSummaries db' other = getSessionSummaries db other.
Proof.
  intros Hother Hm Hs Hmsgs Hsums.
  unfold getAllSessionMessages, getSessionSummaries.
  rewrite Hm, Hs, !filter_app.
  assert (H1 : filter (fun m => String.eqb (session_id m) other) msgs = []).
  { clear Hm. induction msgs as [|m msgs IH]; [reflexivity|]. simpl.
    rewrite (Hmsgs m (or_introl eq_refl)).
    assert (He : String.eqb sessionId other = false)
      by (apply String.eqb_neq; congruence).
    rewrite He. apply IH. intros m' Hin. apply Hmsgs. now right. }
  assert (H2 : filter (fun s => String.eqb (summary_session_id s) other) sums
               = []).
  { clear Hs. induction sums as [|x sums IH]; [reflexivity|]. simpl.
    rewrite (Hsums x (or_introl eq_refl)).
    assert (He : String.eqb sessionId other = false)
      by (apply String.eqb_neq; congruence).
    rewrite He. apply IH. intros x' Hin. apply Hsums. now right. }
  now rewrite H1, H2, !app_nil_r.
Qed.

(** X15: the handlers of the page write rows of their own session only:
    after a submitted turn, a call of the coordinator or an opener for
    one session, the messages and the summaries of every other session
    are what they were. *)
Theorem handlers_leave_other_sessions_alone
  (openai : list ChatRoute.ChatMessage -> ChatRoute.Completion)
  (sessionId partnerName : string) (st : PageState) (db : Database)
  (other : string) (Hother : other <> sessionId) :
  forall db',
    In db' [ snd (fst (handleSubmit openai sessionId st db));
             snd (checkBothPartnersCompleted sessionId st db);
             snd (handlePartnerSelect openai sessionId partnerName st db);
             snd (autoStartConversation openai sessionId partnerName st db) ] ->
    getAllSessionMessages db' other = getAllSessionMessages db other
    /\ getSessionSummaries db' other = getSessionSummaries db other.
Proof.
  assert (Hkeep : forall db', db' = db ->
            getAllSessionMessages db' other = getAllSessionMessages db other
            /\ getSessionSummaries db' other = getSessionSummaries db other)
    by (intros db' ->; now split).
  assert (Hopener : forall st0,
            let db' := snd (fetchOpener openai sessionId partnerName st0 db) in
            getAllSessionMessages db' other = getAllSessionMessages db other
            /\ getSessionSummaries db' other = getSessionSummaries db other).
  { intros st0.
    pose proof (fetchOpener_stores openai sessionId partnerName st0 db) as H.
    destruct (fetchOpener _ _ _ _ _) as [st' db'].
    destruct H as [[_ ->]|(reply & _ & _ & ->)]; [now apply Hkeep|].
    apply (elsewhere_untouched sessionId other db _
             [ {| session_id := sessionId; message := reply;
                  role := assistant; name := Some partnerName |} ] []);
      try assumption; try reflexivity.
    - simpl. now rewrite app_nil_r.
    - intros m [<-|[]]. reflexivity.
    - intros s []. }
  intros db' [<-|[<-|[<-|[<-|[]]]]].
  - unfold handleSubmit.
    destruct (selectedPartner st) as [partner|]; [|now apply Hkeep].
    destruct (_ || _); [now apply Hkeep|].
    destruct (ChatRoute.POST _ _ _) as [| | |reply [text|]];
      try destruct (Str.truthy text); simpl snd.
    all: match goal with
         | |- context [savePartnerSummary _ ?s] =>
             apply (elsewhere_untouched sessionId other db _
                      [ {| session_id := sessionId; message := input st;
                           role := user; name := Some partner |};
                        {| session_id := sessionId; message := reply;
                           role := assistant; name := Some partner |} ]
                      [s])
         | |- context [saveTherapyMessage (saveTherapyMessage _ _) ?m] =>
             apply (elsewhere_untouched sessionId other db _
                      [ {| session_id := sessionId; message := input st;
                           role := user; name := Some partner |}; m ] [])
         | |- context [saveTherapyMessage _ ?m] =>
             apply (elsewhere_untouched sessionId other db _ [m] [])
         end; try assumption; simpl; rewrite <- ?app_assoc, ?app_nil_r;
      try reflexivity;
      try (intros x Hin; repeat destruct Hin as [<-|Hin]; try reflexivity;
           now destruct Hin).
  - destruct (PollFacts.coordinator_solution_or_nothing sessionId st db)
      as [Hsame|(sess & solution & _ & _ & _ & Hsave)].
    + now apply Hkeep.
    + rewrite Hsave.
      apply (elsewhere_untouched sessionId other db _
               [solutionMessageOf sessionId solution] []);
        try assumption; try reflexivity.
      * simpl. now rewrite app_nil_r.
      * intros m [<-|[]]. reflexivity.
      * intros s [].
  - apply Hopener.
  - apply Hopener.
Qed.

Lemma handlers_leave_other_sessions_alone_witness :
  MoreScenario.otherSid <> Scenario.sid
  /\ getAllSessionMessages
       (snd (fst (handleSubmit (MoreScenario.openaiSays "I see.")
                    Scenario.sid
                    (Scenario.bobTyping MoreScenario.withOtherSession)
                    MoreScenario.withOtherSession)))
       MoreScenario.otherSid
     = getAllSessionMessages MoreScenario.withOtherSession
                             MoreScenario.otherSid.
Proof.
  split; [discriminate|].
  apply (handlers_leave_other_sessions_alone
           (MoreScenario.openaiSays "I see.") Scenario.sid "Bob"
           (Scenario.bobTyping MoreScenario.withOtherSession)
           MoreScenario.withOtherSession MoreScenario.otherSid);
    [discriminate|now left].
Defined.

End OpenerFacts.

(* ===================================================================== *)
(** ** More on the chat route and its detector *)
(* ===================================================================== *)

Module RouteFacts.
Import TherapyService Vocabulary Notions ChatRoute.
Import DetectorFacts.

Lemma truthy_false (s : string) : Str.truthy s = false <-> s = "".
Proof.
  unfold Str.truthy. rewrite negb_false_iff. apply String.eqb_eq.
Qed.

(** X16: the answers of the chat route.  It asks for the fields first,
    then for the session, and only then calls the completion.  A reply
    it sends is never empty, and the summary it sends with it is the
    reply itself, sent exactly when the reply has the summary format. *)
Theorem chat_route_answers
  (openai : list ChatMessage -> Completion) (db : Database)
  (req : ChatRequest) :
  (POST openai db req = MissingFields
   <-> sessionId req = "" \/ partnerName req = "" \/ userText req = "")
  /\ (POST openai db req = SessionNotFound
      <-> sessionId req <> "" /\ partnerName req <> "" /\ userText req <> ""
          /\ getTherapySession db (sessionId req) = None)
  /\ (forall reply summary,
        POST openai db req = Ok reply summary ->
        reply <> ""
        /\ summary = (if hasSummaryFormat reply then Some reply else None)).
Proof.
  unfold POST.
  destruct (Str.truthy (sessionId req)) eqn:H1;
    destruct (Str.truthy (partnerName req)) eqn:H2;
    destruct (Str.truthy (userText req)) eqn:H3; simpl;
    try apply StrFacts.truthy_true in H1;
    try apply StrFacts.truthy_true in H2;
    try apply StrFacts.truthy_true in H3;
    try apply truthy_false in H1;
    try apply truthy_false in H2;
    try apply truthy_false in H3;
    try (split; [split; [tauto|reflexivity]
                |split; [split; [discriminate|tauto]|discriminate]]).
  destruct (getTherapySession db (sessionId req)) as [sess|].
  - destruct (openai _) as [|text].
    + split; [split; [discriminate|tauto]|].
      split; [split; [discriminate|intros (_ & _ & _ & H); discriminate]|].
      discriminate.
    + split; [split; [discriminate|tauto]|].
      split; [split; [discriminate|intros (_ & _ & _ & H); discriminate]|].
      intros reply summary [= <- <-]. split.
      * apply StrFacts.truthy_true, SubmitFacts.aiResponseOf_truthy.
      * reflexivity.
  - split; [split; [discriminate|tauto]|].
    split; [split; [tauto|reflexivity]|discriminate].
Qed.

Lemma chat_route_answers_witness :
  let req := {| sessionId := Scenario.sid; partnerName := "Bob";
                userText := "Hello"; messages := [] |} in
  let reply := message Scenario.bobReply in
  POST (MoreScenario.openaiSays reply) Scenario.aliceOnly req
  = Ok reply (Some reply)
  /\ reply <> "".
Proof.
  intros req reply.
  assert (H : POST (MoreScenario.openaiSays reply) Scenario.aliceOnly req
              = Ok reply (Some reply)) by reflexivity.
  split; [exact H|].
  destruct (chat_route_answers (MoreScenario.openaiSays reply)
              Scenario.aliceOnly req) as (_ & _ & Hok).
  exact (proj1 (Hok reply (Some reply) H)).
Defined.

(** X17: the prompt of the partner listed first is the first template
    with the second name, whatever the database holds and whatever the
    text of the turn: no summary is ever added to it. *)
Theorem first_partner_prompt_ignores_summaries
  (db : Database) (session : TherapySession) (req : ChatRequest)
  (second : string) (rest : list string)
  (Hnames : partnerNamesOf session = partnerName req :: second :: rest)
  (Hdistinct : second <> partnerName req)
  (Hnonempty : second <> "") :
  selectedPromptOf db session req
  = createPartner1Prompt (partnerName req) second.
Proof.
  unfold selectedPromptOf, isPartner1Of, otherPartnerNameOf.
  rewrite Hnames. simpl. rewrite String.eqb_refl. simpl.
  apply String.eqb_neq in Hdistinct. rewrite Hdistinct. simpl.
  apply StrFacts.truthy_true in Hnonempty. now rewrite Hnonempty.
Qed.

Lemma first_partner_prompt_ignores_summaries_witness :
  let req := {| sessionId := Scenario.sid; partnerName := "Alice";
                userText := START_CONVERSATION; messages := [] |} in
  partnerNamesOf Scenario.aliceAndBob = ["Alice"; "Bob"]
  /\ selectedPromptOf Scenario.bothSummarized Scenario.aliceAndBob req
     = createPartner1Prompt "Alice" "Bob".
Proof.
  intros req. split; [reflexivity|].
  apply (first_partner_prompt_ignores_summaries Scenario.bothSummarized
           Scenario.aliceAndBob req "Bob" []);
    [reflexivity|discriminate|discriminate].
Defined.

Lemma hasSummaryFormat_lower (r r' : string) :
  Str.toLowerCase r = Str.toLowerCase r' ->
  hasSummaryFormat r = hasSummaryFormat r'.
Proof. unfold hasSummaryFormat. now intros ->. Qed.

(** X18: the detector does not see the case of the letters of the reply,
    and text around a reply with the summary format does not hide it. *)
Theorem detector_ignores_case_and_surroundings (reply : string) :
  (forall other, eqIgnoreCase reply other ->
                 hasSummaryFormat other = hasSummaryFormat reply)
  /\ (hasSummaryFormat reply = true ->
      forall before after,
        hasSummaryFormat (before +++ reply +++ after) = true).
Proof.
  split.
  - intros other Hsame. apply hasSummaryFormat_lower. symmetry.
    now apply toLowerCase_eqIgnoreCase.
  - intros Hfound before after.
    apply hasSummaryFormat_iff in Hfound.
    destruct Hfound as (marker & Hin & pre & mid & post & -> & Hmid).
    apply hasSummaryFormat_iff. exists marker. split; [exact Hin|].
    exists (before +++ pre), mid, (post +++ after). split; [|exact Hmid].
    now rewrite !StrFacts.append_assoc.
Qed.

Lemma detector_ignores_case_and_surroundings_witness :
  hasSummaryFormat "Here's what I have understood so far from your perspective"
  = true
  /\ hasSummaryFormat
       ("Sure. "
        +++ "Here's what I have understood so far from your perspective"
        +++ ": you are tired.") = true.
Proof.
  split; [reflexivity|].
  now apply (detector_ignores_case_and_surroundings
               "Here's what I have understood so far from your perspective").
Defined.

Lemma without_app (c : ascii) (a b : string) :
  without c (a +++ b) = without c a && without c b.
Proof.
  induction a as [|d a IH]; simpl; [reflexivity|].
  now rewrite IH, andb_assoc.
Qed.

Lemma sameLetter_apostrophe (c : ascii) :
  sameLetter c "'"%char -> c = "'"%char.
Proof.
  intros [H|[[Hu H]|[Hu H]]].
  - exact H.
  - apply isUpper_range in Hu.
    assert (E : nat_of_ascii "'"%char = 39) by reflexivity.
    rewrite E in H. lia.
  - assert (E : Str.isUpper "'"%char = false) by reflexivity.
    congruence.
Qed.

Lemma eqIgnoreCase_without_apostrophe (s marker : string) :
  eqIgnoreCase s marker ->
  without "'"%char marker = false -> without "'"%char s = false.
Proof.
  induction 1 as [|c1 c2 s1 s2 Hc _ IH]; simpl; [discriminate|].
  destruct (Ascii.eqb c2 "'"%char) eqn:H2; simpl.
  - intros _. apply Ascii.eqb_eq in H2. subst c2.
    apply sameLetter_apostrophe in Hc. subst c1. reflexivity.
  - intros Hrest. rewrite (IH Hrest). apply andb_false_r.
Qed.

(** X19: a reply without the plain apostrophe is never taken for a
    summary: all four marker phrases have one, so a reply that writes
    them with a typographic apostrophe goes undetected. *)
Theorem reply_without_apostrophe_is_no_summary (reply : string)
  (Hplain : without "'"%char reply = true) :
  detectSummary reply = None.
Proof.
  unfold detectSummary.
  destruct (hasSummaryFormat reply) eqn:Hfound; [|reflexivity]. exfalso.
  apply hasSummaryFormat_iff in Hfound.
  destruct Hfound as (marker & Hin & pre & mid & post & -> & Hmid).
  rewrite !without_app in Hplain.
  apply andb_true_iff in Hplain. destruct Hplain as [_ Hplain].
  apply andb_true_iff in Hplain. destruct Hplain as [Hplain _].
  assert (Hmarker : without "'"%char marker = false).
  { destruct Hin as [<-|[<-|[<-|[<-|[]]]]]; reflexivity. }
  rewrite (eqIgnoreCase_without_apostrophe mid marker Hmid Hmarker) in Hplain.
  discriminate.
Qed.

Lemma reply_without_apostrophe_is_no_summary_witness :
  let reply := "Here is what I have understood about your side of the story: ..." in
  without "'"%char reply = true /\ detectSummary reply = None.
Proof.
  intros reply. split; [reflexivity|].
  now apply (reply_without_apostrophe_is_no_summary reply).
Defined.

End RouteFacts.

(* ===================================================================== *)
(** ** More on sessions, names and summaries *)
(* ===================================================================== *)

Module NamesFacts.
Import TherapyService Vocabulary Notions.

Lemma append_nil_r (s : string) : s +++ "" = s.
Proof. induction s as [|c s IH]; simpl; [reflexivity|now rewrite IH]. Qed.

Lemma prefix_nil (s : string) : prefix "" s = true.
Proof. now destruct s. Qed.

(** Whether [p] starts a string is decided by the first characters. *)
Lemma prefix_longer (p : string) :
  forall s t, String.length p <= String.length s ->
    prefix p (s +++ t) = prefix p s.
Proof.
  induction p as [|a p IH]; intros s t Hlen.
  - now rewrite !prefix_nil.
  - destruct s as [|d s]; simpl in Hlen; [lia|].
    simpl. destruct (ascii_dec a d); [|reflexivity].
    apply IH. lia.
Qed.

Lemma includes_cons (c : ascii) (s sub : string) :
  Str.includes (String c s) sub = prefix sub (String c s) || Str.includes s sub.
Proof. reflexivity. Qed.

Lemma split_without_separator (s : string) :
  forall cur, Str.includes s " & " = false ->
    Str.splitGo " & " 0 cur s = [cur +++ s].
Proof.
  induction s as [|c s IH]; intros cur Hno.
  - simpl. now rewrite append_nil_r.
  - rewrite includes_cons in Hno. apply orb_false_iff in Hno.
    destruct Hno as [Hp Hrest].
    change (Str.splitGo " & " 0 cur (String c s))
      with (if prefix " & " (String c s)
            then cur :: Str.splitGo " & " 2 "" s
            else Str.splitGo " & " 0 (cur +++ String c "") s).
    rewrite Hp, (IH _ Hrest), StrFacts.append_assoc. reflexivity.
Qed.

Lemma split_at_separator (a : string) :
  forall cur b, Str.includes (a +++ " &") " & " = false ->
    Str.splitGo " & " 0 cur (a +++ " & " +++ b)
    = (cur +++ a) :: Str.splitGo " & " 0 "" b.
Proof.
  induction a as [|c a IH]; intros cur b Hno.
  - rewrite append_nil_r.
    change (Str.splitGo " & " 0 cur ("" +++ " & " +++ b))
      with (if prefix " & " (" & " +++ b)
            then cur :: Str.splitGo " & " 0 "" b
            else Str.splitGo " & " 0 (cur +++ " ") ("& " +++ b)).
    assert (Hp : prefix " & " (" & " +++ b) = true)
      by (apply DetectorFacts.prefix_app; now exists b).
    now rewrite Hp.
  - change ((String c a) +++ " &") with (String c (a +++ " &")) in Hno.
    rewrite includes_cons in Hno. apply orb_false_iff in Hno.
    destruct Hno as [Hp Hrest].
    assert (Hp' : prefix " & " (String c (a +++ " & " +++ b)) = false).
    { replace (String c (a +++ " & " +++ b))
        with (String c (a +++ " &") +++ (" " +++ b)).
      - rewrite prefix_longer; [exact Hp|].
        simpl. clear. induction a; simpl; lia.
      - simpl. f_equal. now rewrite StrFacts.append_assoc. }
    change (Str.splitGo " & " 0 cur (String c a +++ " & " +++ b))
      with (if prefix " & " (String c (a +++ " & " +++ b))
            then cur :: Str.splitGo " & " 2 "" (a +++ " & " +++ b)
            else Str.splitGo " & " 0 (cur +++ String c "")
                             (a +++ " & " +++ b)).
    rewrite Hp', (IH _ _ Hrest), StrFacts.append_assoc. reflexivity.
Qed.

(** The names put together with the separator come apart again. *)
Lemma split_joined_names (a b : string) :
  Str.includes (a +++ " &") " & " = false ->
  Str.includes b " & " = false ->
  Str.split " & " (a +++ " & " +++ b) = [a; b].
Proof.
  intros Ha Hb. unfold Str.split.
  rewrite (split_at_separator a "" b Ha).
  now rewrite (split_without_separator b "" Hb).
Qed.

Lemma handleStartSession_cases
  (db : Database) (newId partner1Name partner2Name : string) :
  (Blank partner1Name \/ Blank partner2Name ->
   Home.handleStartSession db newId partner1Name partner2Name
   = (db, Home.MissingInformation))
  /\ (~ Blank partner1Name -> ~ Blank partner2Name ->
      Home.handleStartSession db newId partner1Name partner2Name
      = (fst (createTherapySession db newId
                (Str.trim partner1Name +++ " & " +++ Str.trim partner2Name)),
         Home.Navigated newId)).
Proof.
  unfold Home.handleStartSession. split.
  - intros [H|H]; apply TrimFacts.truthy_trim_false in H; rewrite H;
      [reflexivity|now rewrite orb_true_r].
  - intros H1 H2.
    assert (Ht : Str.trim partner1Name <> "").
    { intros Ht. now apply TrimFacts.trim_empty in Ht. }
    apply TrimFacts.truthy_trim_true in H1, H2. rewrite H1, H2.
    simpl negb. simpl orb. cbv iota.
    unfold CreateSessionRoute.POST.
    assert (Hne : Str.truthy (Str.trim partner1Name +++ " & "
                              +++ Str.trim partner2Name) = true).
    { apply StrFacts.truthy_true. intros Hempty.
      destruct (Str.trim partner1Name); [now elim Ht|discriminate]. }
    rewrite Hne. reflexivity.
Qed.

(** X20: the start form.  A blank name, that is, one of white space
    only, ends it with the notice of missing information, and the
    database is not touched; otherwise the session is created with the
    given identifier, and the page is sent to it: with two names that
    are not blank the creation is never refused. *)
Theorem start_form_outcomes
  (db : Database) (newId partner1Name partner2Name : string) :
  (Blank partner1Name \/ Blank partner2Name ->
   Home.handleStartSession db newId partner1Name partner2Name
   = (db, Home.MissingInformation))
  /\ (~ Blank partner1Name -> ~ Blank partner2Name ->
      Home.handleStartSession db newId partner1Name partner2Name
      = (fst (createTherapySession db newId
                (Str.trim partner1Name +++ " & " +++ Str.trim partner2Name)),
         Home.Navigated newId)).
Proof. exact (handleStartSession_cases db newId partner1Name partner2Name). Qed.

Lemma start_form_outcomes_witness :
  let wide := Str.utf8 [227; 128; 128] +++ Str.utf8 [194; 160] in
  Blank wide
  /\ Home.handleStartSession emptyDatabase Scenario.sid "Alice" wide
     = (emptyDatabase, Home.MissingInformation)
  /\ ~ Blank "Alice" /\ ~ Blank "Bob"
  /\ Home.handleStartSession emptyDatabase Scenario.sid "Alice" "Bob"
     = (fst (createTherapySession emptyDatabase Scenario.sid "Alice & Bob"),
        Home.Navigated Scenario.sid).
Proof.
  intros wide.
  assert (Hwide : Blank wide) by (apply TrimFacts.trim_empty; reflexivity).
  assert (Ha : ~ Blank "Alice")
    by (apply TrimFacts.not_Blank_by_trim; discriminate).
  assert (Hb : ~ Blank "Bob")
    by (apply TrimFacts.not_Blank_by_trim; discriminate).
  split; [exact Hwide|]. split.
  - apply (start_form_outcomes emptyDatabase Scenario.sid "Alice" wide).
    now right.
  - split; [exact Ha|]. split; [exact Hb|].
    now apply (start_form_outcomes emptyDatabase Scenario.sid "Alice" "Bob").
Defined.

(** X21: the names come back.  When the first trimmed name followed by
    [" &"] and the second trimmed name do not contain the separator, the
    session the form stores is read, by the route and by the page, as
    the list of exactly these two names, in this order. *)
Theorem stored_names_come_apart
  (db : Database) (newId partner1Name partner2Name : string)
  (db' : Database) (sessionId : string)
  (Haccepted : Home.handleStartSession db newId partner1Name partner2Name
               = (db', Home.Navigated sessionId))
  (Hfirst : Str.includes (Str.trim partner1Name +++ " &") " & " = false)
  (Hsecond : Str.includes (Str.trim partner2Name) " & " = false) :
  exists sess,
    chat_sessions db' = chat_sessions db ++ [sess]
    /\ id sess = sessionId
    /\ partnerNamesOf sess = [Str.trim partner1Name; Str.trim partner2Name].
Proof.
  destruct (handleStartSession_cases db newId partner1Name partner2Name)
    as [Hmissing Hcreated].
  destruct (TrimFacts.truthy_trim partner1Name) as [[H1 _]|[H1 _]].
  { rewrite Hmissing in Haccepted by now left. discriminate. }
  destruct (TrimFacts.truthy_trim partner2Name) as [[H2 _]|[H2 _]].
  { rewrite Hmissing in Haccepted by now right. discriminate. }
  rewrite (Hcreated H1 H2) in Haccepted.
  injection Haccepted as <- <-.
  eexists. split; [reflexivity|]. split; [reflexivity|].
  unfold partnerNamesOf. simpl partner_names.
  now apply split_joined_names.
Qed.

Lemma stored_names_come_apart_witness :
  let name1 := Str.utf8 [194; 160] +++ "Alice" in
  let name2 := "Bob" +++ Str.utf8 [226; 128; 137] in
  exists sess,
    chat_sessions (fst (Home.handleStartSession emptyDatabase Scenario.sid
                          name1 name2))
    = chat_sessions emptyDatabase ++ [sess]
    /\ id sess = Scenario.sid
    /\ partnerNamesOf sess = ["Alice"; "Bob"].
Proof.
  intros name1 name2.
  apply (stored_names_come_apart emptyDatabase Scenario.sid name1 name2
           _ Scenario.sid); reflexivity.
Defined.

Lemma filter_none {A} (f : A -> bool) (l : list A) :
  (forall x, In x l -> f x = false) -> filter f l = [].
Proof.
  induction l as [|x l IH]; intros H; simpl; [reflexivity|].
  rewrite (H x (or_introl eq_refl)). apply IH. intros y Hy. apply H. now right.
Qed.

(** X22: a session created under an identifier that no stored session
    has is found under it, as a THERAPY session with the names as they
    were sent; the lookup of every other identifier is what it was. *)
Theorem created_session_is_found
  (db : Database) (newId names : string)
  (Hnames : names <> "")
  (Hfresh : forall s, In s (chat_sessions db) -> id s <> newId) :
  let '(db', answer) := CreateSessionRoute.POST db newId (Some names) in
  answer = CreateSessionRoute.Created newId (Some names)
  /\ getTherapySession db' newId
     = Some {| id := newId; user_id := None; has_summary := false;
               summary := None; session_type := THERAPY;
               partner_names := Some names |}
  /\ forall other, other <> newId ->
       getTherapySession db' other = getTherapySession db other.
Proof.
  unfold CreateSessionRoute.POST.
  apply StrFacts.truthy_true in Hnames. rewrite Hnames. simpl.
  split; [reflexivity|]. split.
  - unfold getTherapySession. simpl. rewrite filter_app. simpl.
    rewrite String.eqb_refl. simpl.
    rewrite filter_none; [reflexivity|].
    intros s Hin. apply andb_false_iff. left.
    apply String.eqb_neq. now apply Hfresh.
  - intros other Hother. unfold getTherapySession. simpl.
    rewrite filter_app. simpl.
    assert (He : String.eqb newId other = false)
      by (apply String.eqb_neq; congruence).
    rewrite He. simpl. now rewrite app_nil_r.
Qed.

Lemma created_session_is_found_witness :
  let '(db', answer) :=
    CreateSessionRoute.POST Scenario.aliceOnly "s9" (Some "Carol & Dan") in
  answer = CreateSessionRoute.Created "s9" (Some "Carol & Dan")
  /\ getTherapySession db' Scenario.sid = Some Scenario.aliceAndBob.
Proof.
  pose proof (created_session_is_found Scenario.aliceOnly "s9" "Carol & Dan")
    as H.
  destruct (CreateSessionRoute.POST Scenario.aliceOnly "s9"
              (Some "Carol & Dan")) as [db' answer].
  destruct H as (Hanswer & _ & Hother).
  - discriminate.
  - intros s [<-|[]]. discriminate.
  - split; [exact Hanswer|]. now rewrite Hother.
Defined.

(** X23: the first summary stored for a partner of a session is what
    [getPartnerSummary] finds for this partner afterwards; it is added
    at the end of the summaries of the session, and the lookup for
    every other partner or session is what it was. *)
Theorem first_summary_is_found (db : Database) (s : PartnerSummary)
  (Hnone : summaryRows db (summary_session_id s) (partner_name s) = []) :
  let db' := savePartnerSummary db s in
  getPartnerSummary db' (summary_session_id s) (partner_name s) = Some s
  /\ getSessionSummaries db' (summary_session_id s)
     = getSessionSummaries db (summary_session_id s) ++ [s]
  /\ forall sessionId partnerName,
       (sessionId <> summary_session_id s \/ partnerName <> partner_name s) ->
       getPartnerSummary db' sessionId partnerName
       = getPartnerSummary db sessionId partnerName.
Proof.
  unfold summaryRows in Hnone. split; [|split].
  - unfold getPartnerSummary. simpl. rewrite filter_app, Hnone. simpl.
    now rewrite !String.eqb_refl.
  - unfold getSessionSummaries. simpl. rewrite filter_app. simpl.
    now rewrite String.eqb_refl.
  - intros sessionId partnerName Hdiff.
    unfold getPartnerSummary. simpl. rewrite filter_app. simpl.
    assert (He : String.eqb (summary_session_id s) sessionId
                 && String.eqb (partner_name s) partnerName = false).
    { apply andb_false_iff.
      destruct Hdiff as [H|H]; [left|right]; apply String.eqb_neq; congruence. }
    rewrite He. now rewrite app_nil_r.
Qed.

Lemma first_summary_is_found_witness :
  summaryRows Scenario.aliceOnly Scenario.sid "Bob" = []
  /\ getPartnerSummary (savePartnerSummary Scenario.aliceOnly
                          Scenario.bobSummary) Scenario.sid "Bob"
     = Some Scenario.bobSummary.
Proof.
  split; [reflexivity|].
  now apply (first_summary_is_found Scenario.aliceOnly Scenario.bobSummary).
Defined.

(** X24: a second summary stored for the same partner.  The lookup of
    one row no longer answers for this partner, while the summaries of
    the session list both rows. *)
Theorem second_summary_hides_both (db : Database) (s earlier : PartnerSummary)
  (Hone : summaryRows db (summary_session_id s) (partner_name s) = [earlier]) :
  let db' := savePartnerSummary db s in
  getPartnerSummary db (summary_session_id s) (partner_name s) = Some earlier
  /\ getPartnerSummary db' (summary_session_id s) (partner_name s) = None
  /\ In earlier (getSessionSummaries db' (summary_session_id s))
  /\ In s (getSessionSummaries db' (summary_session_id s)).
Proof.
  assert (Hin : In earlier (summaryRows db (summary_session_id s)
                                        (partner_name s)))
    by (rewrite Hone; now left).
  unfold summaryRows in Hone, Hin. apply filter_In in Hin.
  destruct Hin as [Hin Hkey]. apply andb_true_iff in Hkey.
  destruct Hkey as [Hkey _].
  split; [|split; [|split]].
  - unfold getPartnerSummary. now rewrite Hone.
  - unfold getPartnerSummary. simpl. rewrite filter_app, Hone. simpl.
    now rewrite !String.eqb_refl.
  - unfold getSessionSummaries. simpl. rewrite filter_app.
    apply in_or_app. left. apply filter_In. now split.
  - unfold getSessionSummaries. simpl. rewrite filter_app.
    apply in_or_app. right. simpl. rewrite String.eqb_refl. now left.
Qed.

Lemma second_summary_hides_both_witness :
  summaryRows Scenario.aliceOnly Scenario.sid "Alice" = [Scenario.aliceSummary]
  /\ getPartnerSummary (savePartnerSummary Scenario.aliceOnly
                          Scenario.aliceSummary) Scenario.sid "Alice"
     = None.
Proof.
  split; [reflexivity|].
  now apply (second_summary_hides_both Scenario.aliceOnly
               Scenario.aliceSummary Scenario.aliceSummary).
Defined.

End NamesFacts.

(* ===================================================================== *)
(** ** What the page shows *)
(* ===================================================================== *)

Module DisplayFacts.
Import TherapyService Vocabulary Notions ChatPage ChatPageEvents StrOps.

Lemma replace_unfold (pattern replacement s : string) :
  replace pattern replacement s
  = if prefix pattern s
    then replacement +++ drop (String.length pattern) s
    else match s with
         | EmptyString => EmptyString
         | String c s' => String c (replace pattern replacement s')
         end.
Proof. now destruct s. Qed.

Lemma drop_app (a b : string) : drop (String.length a) (a +++ b) = b.
Proof. induction a as [|c a IH]; simpl; [now destruct b|exact IH]. Qed.

Lemma take_app (a b : string) : take (String.length a) (a +++ b) = a.
Proof.
  induction a as [|c a IH]; simpl; [now destruct b|now rewrite IH].
Qed.

Lemma length_append (a b : string) :
  String.length (a +++ b) = String.length a + String.length b.
Proof. induction a as [|c a IH]; simpl; [reflexivity|now rewrite IH]. Qed.

(** X25: the text the page shows as the final solution of the message
    the coordinator stored for a summary is the text of that summary:
    taking the heading off undoes putting it on. *)
Theorem shown_solution_is_the_summary
  (sessionId : string) (solution : PartnerSummary) :
  solutionTextOf (solutionMessageOf sessionId solution)
  = summary_text solution.
Proof.
  change (replace solutionHeading ""
                  (solutionHeading +++ summary_text solution)
          = summary_text solution).
  rewrite replace_unfold.
  assert (Hp : prefix solutionHeading
                      (solutionHeading +++ summary_text solution) = true)
    by (apply DetectorFacts.prefix_app; now eexists).
  rewrite Hp. exact (drop_app solutionHeading (summary_text solution)).
Qed.

Lemma star_free_head (c : ascii) (s : string) :
  without "*"%char (String c s) = true ->
  isStar c = false /\ without "*"%char s = true.
Proof.
  simpl. intros H. apply andb_true_iff in H. destruct H as [Hc Hs].
  apply negb_true_iff in Hc. now split.
Qed.

Lemma boldAt_plain (c : ascii) (s : string) :
  isStar c = false -> boldAt (String c s) = None.
Proof. intros Hc. unfold boldAt. destruct s; [reflexivity|now rewrite Hc]. Qed.

Lemma splitBoldGo_plain (s : string) :
  forall cur, without "*"%char s = true ->
    splitBoldGo 0 cur s = [cur +++ s].
Proof.
  induction s as [|c s IH]; intros cur Hs.
  - simpl. now rewrite NamesFacts.append_nil_r.
  - apply star_free_head in Hs. destruct Hs as [Hc Hs].
    change (splitBoldGo 0 cur (String c s))
      with (match boldAt (String c s) with
            | Some inner =>
                cur :: ("**" +++ inner +++ "**")
                    :: splitBoldGo (String.length inner + 3) "" s
            | None => splitBoldGo 0 (cur +++ String c "") s
            end).
    rewrite (boldAt_plain c s Hc), (IH _ Hs), StrFacts.append_assoc.
    reflexivity.
Qed.

Lemma prefix_stars_plain (s : string) :
  without "*"%char s = true -> prefix "**" s = false.
Proof.
  destruct s as [|c s]; [reflexivity|]. intros Hs.
  apply star_free_head in Hs. destruct Hs as [Hc _].
  change (prefix "**" (String c s))
    with (match ascii_dec "*"%char c with
          | left _ => prefix "*" s
          | right _ => false
          end).
  destruct (ascii_dec "*"%char c) as [<-|]; [discriminate|reflexivity].
Qed.

Lemma partOf_plain (s : string) :
  without "*"%char s = true -> partOf s = Plain s.
Proof.
  intros Hs. unfold partOf, startsWith.
  now rewrite (prefix_stars_plain s Hs).
Qed.

Lemma prefix_char (c d : ascii) (s : string) :
  prefix (String c "") (String d s) = Ascii.eqb d c.
Proof.
  change (prefix (String c "") (String d s))
    with (match ascii_dec c d with
          | left _ => prefix "" s
          | right _ => false
          end).
  destruct (ascii_dec c d) as [<-|Hne].
  - rewrite Ascii.eqb_refl. now destruct s.
  - symmetry. apply Ascii.eqb_neq. congruence.
Qed.

(** Splitting at a character and joining with it gives the text back,
    and the pieces have no character the text has not. *)
Lemma split_char (sep bad : ascii) (s : string) :
  forall cur,
    join (String sep "") (Str.splitGo (String sep "") 0 cur s) = cur +++ s
    /\ (without bad cur = true -> without bad s = true ->
        forall piece, In piece (Str.splitGo (String sep "") 0 cur s) ->
                      without bad piece = true)
    /\ Str.splitGo (String sep "") 0 cur s <> [].
Proof.
  induction s as [|d s IH]; intros cur.
  - simpl. rewrite NamesFacts.append_nil_r. split; [reflexivity|]. split.
    + intros Hcur _ piece [<-|[]]. exact Hcur.
    + discriminate.
  - change (Str.splitGo (String sep "") 0 cur (String d s))
      with (if prefix (String sep "") (String d s)
            then cur :: Str.splitGo (String sep "") 0 "" s
            else Str.splitGo (String sep "") 0 (cur +++ String d "") s).
    rewrite prefix_char.
    destruct (Ascii.eqb d sep) eqn:Hd.
    + apply Ascii.eqb_eq in Hd. subst d.
      destruct (IH "") as (Hjoin & Hpieces & Hne).
      split; [|split].
      * destruct (Str.splitGo (String sep "") 0 "" s) as [|x l] eqn:Hsplit;
          [now elim Hne|].
        change (join (String sep "") (cur :: x :: l))
          with (cur +++ String sep "" +++ join (String sep "") (x :: l)).
        rewrite Hjoin. reflexivity.
      * intros Hcur Hs piece [<-|Hin]; [exact Hcur|].
        simpl in Hs. apply andb_true_iff in Hs. destruct Hs as [_ Hs].
        now apply Hpieces.
      * discriminate.
    + destruct (IH (cur +++ String d "")) as (Hjoin & Hpieces & Hne).
      split; [|split].
      * rewrite Hjoin, StrFacts.append_assoc. reflexivity.
      * intros Hcur Hs piece Hin.
        simpl in Hs. apply andb_true_iff in Hs. destruct Hs as [Hd' Hs].
        apply Hpieces; try assumption.
        rewrite RouteFacts.without_app, Hcur. simpl. now rewrite Hd'.
      * exact Hne.
Qed.

Lemma shownText_plain (lines : list string) :
  shownText (map (fun line => [Plain line]) lines) = join Str.nl lines.
Proof.
  unfold shownText. rewrite map_map. f_equal.
  induction lines as [|l lines IH]; simpl; [reflexivity|].
  f_equal; [apply NamesFacts.append_nil_r|exact IH].
Qed.

(** X26: a content without a star is shown as it is: every line is one
    plain piece, and the shown pieces, line after line, spell the
    content. *)
Theorem content_without_stars_is_shown_unchanged (content : string)
  (Hplain : without "*"%char content = true) :
  formatMessageContent content
  = map (fun line => [Plain line]) (Str.split Str.nl content)
  /\ shownText (formatMessageContent content) = content.
Proof.
  assert (Hformat : formatMessageContent content
                    = map (fun line => [Plain line])
                          (Str.split Str.nl content)).
  { unfold formatMessageContent. apply map_ext_in. intros line Hin.
    assert (Hline : without "*"%char line = true).
    { destruct (split_char "010" "*" content "") as (_ & Hpieces & _).
      now apply Hpieces. }
    unfold splitBold. rewrite (splitBoldGo_plain line "" Hline). simpl.
    now rewrite (partOf_plain line Hline). }
  split; [exact Hformat|].
  rewrite Hformat, shownText_plain.
  exact (proj1 (split_char "010" "*" content "")).
Qed.

Lemma content_without_stars_is_shown_unchanged_witness :
  let content := "Hey Bob," +++ Str.nl +++ "how was your week?" in
  without "*"%char content = true
  /\ shownText (formatMessageContent content) = content.
Proof.
  intros content. split; [reflexivity|].
  now apply (content_without_stars_is_shown_unchanged content).
Defined.

Lemma split_char_none (sep : ascii) (s : string) :
  forall cur, without sep s = true ->
    Str.splitGo (String sep "") 0 cur s = [cur +++ s].
Proof.
  induction s as [|d s IH]; intros cur Hs.
  - simpl. now rewrite NamesFacts.append_nil_r.
  - simpl in Hs. apply andb_true_iff in Hs. destruct Hs as [Hd Hs].
    apply negb_true_iff in Hd.
    change (Str.splitGo (String sep "") 0 cur (String d s))
      with (if prefix (String sep "") (String d s)
            then cur :: Str.splitGo (String sep "") 0 "" s
            else Str.splitGo (String sep "") 0 (cur +++ String d "") s).
    rewrite prefix_char, Hd, (IH _ Hs), StrFacts.append_assoc. reflexivity.
Qed.

Lemma starFreeRun_stop (b t : string) :
  without "*"%char b = true -> starFreeRun (b +++ String "*" t) = b.
Proof.
  induction b as [|d b IH]; intros Hb; [reflexivity|].
  apply star_free_head in Hb. destruct Hb as [Hd Hb].
  simpl. now rewrite Hd, IH.
Qed.

Lemma boldAt_match (b c : string) :
  without "*"%char b = true -> b <> "" ->
  boldAt ("**" +++ b +++ "**" +++ c) = Some b.
Proof.
  intros Hb Hne.
  change (boldAt ("**" +++ b +++ "**" +++ c))
    with (let inner := starFreeRun (b +++ String "*" (String "*" c)) in
          if String.eqb inner ""
          then None
          else if prefix "**" (drop (String.length inner)
                                    (b +++ "**" +++ c))
               then Some inner else None).
  rewrite (starFreeRun_stop b _ Hb). cbv zeta.
  apply String.eqb_neq in Hne. rewrite Hne, drop_app.
  assert (Hp : prefix "**" ("**" +++ c) = true)
    by (apply DetectorFacts.prefix_app; now exists c).
  now rewrite Hp.
Qed.

Lemma splitBoldGo_skip (x : string) :
  forall k cur y,
    splitBoldGo (String.length x + k) cur (x +++ y) = splitBoldGo k cur y.
Proof.
  induction x as [|d x IH]; intros k cur y; [reflexivity|].
  simpl. apply IH.
Qed.

Lemma splitBoldGo_bold (b c : string)
  (Hb : without "*"%char b = true) (Hne : b <> "")
  (Hc : without "*"%char c = true) :
  forall a cur, without "*"%char a = true ->
    splitBoldGo 0 cur (a +++ "**" +++ b +++ "**" +++ c)
    = [cur +++ a; "**" +++ b +++ "**"; c].
Proof.
  induction a as [|d a IH]; intros cur Ha.
  - rewrite NamesFacts.append_nil_r.
    change (splitBoldGo 0 cur ("" +++ "**" +++ b +++ "**" +++ c))
      with (match boldAt ("**" +++ b +++ "**" +++ c) with
            | Some inner =>
                cur :: ("**" +++ inner +++ "**")
                    :: splitBoldGo (String.length inner + 3) ""
                                   ("*" +++ b +++ "**" +++ c)
            | None => splitBoldGo 0 (cur +++ "*") ("*" +++ b +++ "**" +++ c)
            end).
    rewrite (boldAt_match b c Hb Hne). f_equal. f_equal.
    replace ("*" +++ b +++ "**" +++ c) with (("*" +++ b +++ "**") +++ c)
      by (now rewrite !StrFacts.append_assoc).
    replace (String.length b + 3) with (String.length ("*" +++ b +++ "**") + 0).
    + rewrite splitBoldGo_skip. now rewrite (splitBoldGo_plain c "" Hc).
    + simpl. rewrite length_append. simpl. lia.
  - apply star_free_head in Ha. destruct Ha as [Hd Ha].
    change (splitBoldGo 0 cur (String d a +++ "**" +++ b +++ "**" +++ c))
      with (match boldAt (String d (a +++ "**" +++ b +++ "**" +++ c)) with
            | Some inner =>
                cur :: ("**" +++ inner +++ "**")
                    :: splitBoldGo (String.length inner + 3) ""
                                   (a +++ "**" +++ b +++ "**" +++ c)
            | None => splitBoldGo 0 (cur +++ String d "")
                                  (a +++ "**" +++ b +++ "**" +++ c)
            end).
    rewrite (boldAt_plain d _ Hd), (IH _ Ha), StrFacts.append_assoc.
    reflexivity.
Qed.

Lemma partOf_bold (b : string) : partOf ("**" +++ b +++ "**") = Bold b.
Proof.
  unfold partOf, startsWith, endsWith, slice2.
  assert (Hp : prefix "**" ("**" +++ b +++ "**") = true)
    by (apply DetectorFacts.prefix_app; now eexists).
  assert (Hlen : String.length ("**" +++ b +++ "**") = String.length b + 4).
  { simpl. rewrite length_append. simpl. lia. }
  rewrite Hp, Hlen.
  assert (Hend : drop (String.length b + 4 - String.length "**")
                      ("**" +++ b +++ "**") = "**").
  { replace (String.length b + 4 - String.length "**")
      with (String.length ("**" +++ b)) by (simpl; lia).
    replace ("**" +++ b +++ "**") with (("**" +++ b) +++ "**")
      by (now rewrite StrFacts.append_assoc).
    apply drop_app. }
  rewrite Hend.
  assert (Hle : (String.length "**" <=? String.length b + 4) = true)
    by (apply Nat.leb_le; simpl; lia).
  rewrite Hle. simpl andb. cbv iota.
  replace (String.length b + 4 - 2 - 2) with (String.length b) by lia.
  change (drop 2 ("**" +++ b +++ "**")) with (b +++ "**").
  now rewrite take_app.
Qed.

(** X27: a line with one bold text.  For texts without star and without
    line feed, the second one not empty, the content made of the first
    text, the second one between two pairs of stars, and the third text
    is shown as one line of three pieces: the first text plain, the
    second text bold and without its stars, the third text plain. *)
Theorem bold_text_is_shown_bold (a b c : string)
  (Ha : without "*"%char a = true /\ without "010"%char a = true)
  (Hb : without "*"%char b = true /\ without "010"%char b = true)
  (Hc : without "*"%char c = true /\ without "010"%char c = true)
  (Hne : b <> "") :
  formatMessageContent (a +++ "**" +++ b +++ "**" +++ c)
  = [[Plain a; Bold b; Plain c]].
Proof.
  destruct Ha as [Ha Hla], Hb as [Hb Hlb], Hc as [Hc Hlc].
  assert (Hsplit : splitBold (a +++ "**" +++ b +++ "**" +++ c)
                   = [a; "**" +++ b +++ "**"; c])
    by (exact (splitBoldGo_bold b c Hb Hne Hc a "" Ha)).
  unfold formatMessageContent, Str.split, Str.nl.
  rewrite split_char_none.
  - change (map (fun line => map partOf (splitBold line))
                ["" +++ a +++ "**" +++ b +++ "**" +++ c])
      with [map partOf (splitBold (a +++ "**" +++ b +++ "**" +++ c))].
    rewrite Hsplit.
    change (map partOf [a; "**" +++ b +++ "**"; c])
      with [partOf a; partOf ("**" +++ b +++ "**"); partOf c].
    now rewrite (partOf_plain a Ha), partOf_bold, (partOf_plain c Hc).
  - rewrite !RouteFacts.without_app, Hla, Hlb, Hlc. reflexivity.
Qed.

Lemma bold_text_is_shown_bold_witness :
  formatMessageContent "Next step: **talk tonight**, calmly."
  = [[Plain "Next step: "; Bold "talk tonight"; Plain ", calmly."]].
Proof.
  apply (bold_text_is_shown_bold "Next step: " "talk tonight" ", calmly.");
    try (split; reflexivity); discriminate.
Defined.

End DisplayFacts.
